(** * quibo-mcp: authentication and API-access layer

    A shallow embedding of [src/lib/auth.ts], [src/lib/config.ts],
    [src/lib/types.ts] and [src/lib/api.ts], and the properties the
    specification states about them.

    Conventions of the embedding.
    - JavaScript strings are [string]s (sequences of bytes, read as UTF-8);
      every pattern the code searches for is ASCII, so byte-wise search
      agrees with search over UTF-16 code units.
    - JavaScript numbers that the code computes are integers, NaN or an
      infinity ([parseInt], [Math.floor], [+]).  A double of magnitude
      2^53 or more is an integer, so [jsnum] holds every such value as the
      integer it is, and [round_double] is the rounding of IEEE 754.
    - A function that may throw returns a [completion]; a promise is a
      [settled] value that may also stay pending.
    - The outside world (sockets, the identity provider, the browser, the
      backend, the clock) is an explicit argument.
    - Console output is not modelled. *)

From Stdlib Require Import ZArith Lia Bool List Ascii String.
From stdpp Require Import base option strings list pretty.
Import ListNotations.

Open Scope string_scope.
Open Scope Z_scope.

(* ===================================================================== *)
(** ** JavaScript primitives used by the code *)
(* ===================================================================== *)

Module Js.

(** The values an expiry can be: an integer, NaN, an infinity, and
    [null], which is what a number that JSON cannot write is read back
    as. *)
Inductive jsnum : Type :=
| Num (z : Z)
| NaN
| Infinity (negative : bool)
| Null.

(** The double nearest to an integer, ties going to the even significand.
    Integers up to 2^53 in magnitude are doubles themselves.  Beyond, the
    doubles between 2^(52+e) and 2^(53+e) are the multiples of 2^e, and
    whatever rounds to 2^1024 or more is an infinity. *)
Definition round_double (z : Z) : jsnum :=
  let m := Z.abs z in
  if m <=? 2 ^ 53 then Num z
  else
    let q := 2 ^ (Z.log2 m - 52) in
    let lo := Z.div m q in
    let r := Z.modulo m q in
    let k := if (q <? 2 * r) || ((2 * r =? q) && Z.odd lo) then lo + 1 else lo in
    if 2 ^ 1024 <=? k * q then Infinity (z <? 0) else Num (Z.sgn z * (k * q)).

(** [a + b]: [null] counts as 0, NaN is absorbing, infinities of opposite
    sign give NaN, and the sum of two numbers is rounded. *)
Definition add (a b : jsnum) : jsnum :=
  match a, b with
  | NaN, _ => NaN
  | _, NaN => NaN
  | Infinity s, Infinity t => if Bool.eqb s t then Infinity s else NaN
  | Infinity s, _ => Infinity s
  | _, Infinity t => Infinity t
  | Num x, Num y => round_double (x + y)
  | Num x, Null => Num x
  | Null, Num y => Num y
  | Null, Null => Num 0
  end.

(** The place of a value on the number line, for a comparison: [null]
    counts as 0, and NaN has no place. *)
Inductive place : Type :=
| Below
| At (z : Z)
| Above.

Definition placeOf (a : jsnum) : option place :=
  match a with
  | Num z => Some (At z)
  | Null => Some (At 0)
  | Infinity true => Some Below
  | Infinity false => Some Above
  | NaN => None
  end.

Definition place_le (x y : place) : bool :=
  match x, y with
  | Below, _ => true
  | _, Above => true
  | At a, At b => a <=? b
  | _, _ => false
  end.

(** [a >= b], [a < b], [a > b]: every comparison with NaN is false. *)
Definition ge (a b : jsnum) : bool :=
  match placeOf a, placeOf b with
  | Some x, Some y => place_le y x
  | _, _ => false
  end.

Definition lt (a b : jsnum) : bool :=
  match placeOf a, placeOf b with
  | Some x, Some y => negb (place_le y x)
  | _, _ => false
  end.

Definition gt (a b : jsnum) : bool := lt b a.

(** What [JSON.stringify] followed by [JSON.parse] makes of a number: NaN
    and the infinities are written as [null]. *)
Definition json_number (a : jsnum) : jsnum :=
  match a with
  | Num z => Num z
  | Null => Null
  | NaN => Null
  | Infinity _ => Null
  end.

(** [Math.floor(ms / 1000)] on an integer count of milliseconds. *)
Definition floor_div_1000 (ms : Z) : Z := Z.div ms 1000.

(** What [Date.now()] returns is a time value: at most 8.64e15
    milliseconds away from the epoch. *)
Definition timeValue (ms : Z) : Prop := Z.abs ms <= 8640000000000000.

(** Truthiness of an optional string: [undefined] and the empty string
    are falsy, every other string is truthy. *)
Definition truthy (v : option string) : bool :=
  match v with
  | Some s => negb (String.eqb s "")
  | None => false
  end.

(** The string that a truthy value is. *)
Definition present (v : option string) : option string :=
  if truthy v then v else None.

(** [v || d] where [d] is a string. *)
Definition or_else (v : option string) (d : string) : string :=
  match v with
  | Some s => if String.eqb s "" then d else s
  | None => d
  end.

(** Whether an optional object is present ([null] and [undefined] are
    the only falsy objects). *)
Definition is_Some_bool {A} (v : option A) : bool :=
  match v with
  | Some _ => true
  | None => false
  end.

(** [s.includes(sub)]: [sub] occurs in [s] at some position. *)
Fixpoint includes (s sub : string) : bool :=
  if String.prefix sub s then true
  else match s with
       | EmptyString => false
       | String _ rest => includes rest sub
       end.

(** The number of occurrences of one character (used to reason about
    [includes]). *)
Fixpoint count_char (c : ascii) (s : string) : nat :=
  match s with
  | String d rest => (if Ascii.eqb c d then 1 else 0) + count_char c rest
  | EmptyString => 0
  end.

(** *** [parseInt(s, 10)] *)

(** The ASCII members of StrWhiteSpaceChar: TAB, LF, VT, FF, CR, SP. *)
Definition is_whitespace (c : ascii) : bool :=
  let n := Z.of_nat (nat_of_ascii c) in
  ((9 <=? n) && (n <=? 13)) || (n =? 32).

(** Its members of two bytes in UTF-8: U+00A0 (C2 A0). *)
Definition is_whitespace2 (c1 c2 : ascii) : bool :=
  (nat_of_ascii c1 =? 194)%nat && (nat_of_ascii c2 =? 160)%nat.

(** Its members of three bytes: U+1680 (E1 9A 80), U+2000 to U+200A
    (E2 80 80 to 8A), U+2028 and U+2029 (E2 80 A8, A9), U+202F (E2 80 AF),
    U+205F (E2 81 9F), U+3000 (E3 80 80) and U+FEFF (EF BB BF). *)
Definition is_whitespace3 (c1 c2 c3 : ascii) : bool :=
  let a := nat_of_ascii c1 in
  let b := nat_of_ascii c2 in
  let c := nat_of_ascii c3 in
  ((a =? 225) && (b =? 154) && (c =? 128)
   || (a =? 226) && (b =? 128)
      && ((128 <=? c) && (c <=? 138) || (c =? 168) || (c =? 169) || (c =? 175))
   || (a =? 226) && (b =? 129) && (c =? 159)
   || (a =? 227) && (b =? 128) && (c =? 128)
   || (a =? 239) && (b =? 187) && (c =? 191))%nat.

(** The text after the leading white space. *)
Fixpoint trimStart (s : string) : string :=
  match s with
  | String c1 rest1 =>
      if is_whitespace c1 then trimStart rest1
      else
        match rest1 with
        | String c2 rest2 =>
            if is_whitespace2 c1 c2 then trimStart rest2
            else
              match rest2 with
              | String c3 rest3 =>
                  if is_whitespace3 c1 c2 c3 then trimStart rest3 else s
              | EmptyString => s
              end
        | EmptyString => s
        end
  | EmptyString => EmptyString
  end.

Definition digit_value (c : ascii) : option Z :=
  let n := Z.of_nat (nat_of_ascii c) in
  if (48 <=? n) && (n <=? 57) then Some (n - 48) else None.

(** The value of the longest prefix of decimal digits; [acc] is the value
    read so far, [None] while no digit has been read. *)
Fixpoint digits (s : string) (acc : option Z) : option Z :=
  match s with
  | String c rest =>
      match digit_value c with
      | Some d => digits rest (Some (10 * default 0 acc + d))
      | None => acc
      end
  | EmptyString => acc
  end.

Definition parseInt (s : string) : jsnum :=
  let t := trimStart s in
  let '(sign, body) :=
    match t with
    | String "-"%char rest => (-1, rest)
    | String "+"%char rest => (1, rest)
    | _ => (1, t)
    end in
  match digits body None with
  | Some n => round_double (sign * n)
  | None => NaN
  end.

(** *** Percent-encoding *)

Definition is_alnum (c : ascii) : bool :=
  let n := Z.of_nat (nat_of_ascii c) in
  ((48 <=? n) && (n <=? 57)) || ((65 <=? n) && (n <=? 90)) || ((97 <=? n) && (n <=? 122)).

Fixpoint mem_char (c : ascii) (s : string) : bool :=
  match s with
  | String d rest => Ascii.eqb c d || mem_char c rest
  | EmptyString => false
  end.

Definition hex_digit (n : N) : ascii :=
  match n with
  | 0%N => "0" | 1%N => "1" | 2%N => "2" | 3%N => "3"
  | 4%N => "4" | 5%N => "5" | 6%N => "6" | 7%N => "7"
  | 8%N => "8" | 9%N => "9" | 10%N => "A" | 11%N => "B"
  | 12%N => "C" | 13%N => "D" | 14%N => "E" | _ => "F"
  end%char.

(** [%XX] for one byte. *)
Definition percent (c : ascii) : string :=
  let n := N_of_ascii c in
  String "%" (String (hex_digit (N.div n 16)) (String (hex_digit (N.modulo n 16)) "")).

(** [encodeURIComponent(s)]: every byte but the unreserved ones
    (letters, digits and [-_.!~*'()]) is percent-encoded. *)
Definition uri_unreserved (c : ascii) : bool :=
  is_alnum c || mem_char c "-_.!~*'()".

Fixpoint encodeURIComponent (s : string) : string :=
  match s with
  | String c rest =>
      (if uri_unreserved c then String c "" else percent c) ++ encodeURIComponent rest
  | EmptyString => EmptyString
  end.

(** The application/x-www-form-urlencoded serializer behind
    [URLSearchParams.toString()]: a space becomes [+], letters, digits
    and [*-._] stay, and every other byte is percent-encoded. *)
Definition form_safe (c : ascii) : bool :=
  is_alnum c || mem_char c "*-._".

Fixpoint form_urlencode (s : string) : string :=
  match s with
  | String c rest =>
      (if Ascii.eqb c " " then "+"
       else if form_safe c then String c "" else percent c) ++ form_urlencode rest
  | EmptyString => EmptyString
  end.

(** Errors that the code throws or that its environment raises. *)
Inductive JsError : Type :=
| Error (message : string)
| TypeError (message : string)
| SyntaxError (message : string)
| ApiError (message : string) (statusCode : Z) (responseBody : option string)
| SystemError (code : string).

(** The result of running a synchronous function. *)
Inductive completion (A : Type) : Type :=
| Return (a : A)
| Throw (e : JsError).
Arguments Return {A} a.
Arguments Throw {A} e.

(** The state of a promise. *)
Inductive settled (A : Type) : Type :=
| Pending
| Resolved (a : A)
| Rejected (e : JsError).
Arguments Pending {A}.
Arguments Resolved {A} a.
Arguments Rejected {A} e.

(** [resolve(a)] and [reject(e)] settle a pending promise and do nothing
    to a settled one. *)
Definition resolve {A} (p : settled A) (a : A) : settled A :=
  match p with
  | Pending => Resolved a
  | _ => p
  end.

Definition reject {A} (p : settled A) (e : JsError) : settled A :=
  match p with
  | Pending => Rejected e
  | _ => p
  end.

End Js.
Import Js.

(* ===================================================================== *)
(** ** types.ts *)
(* ===================================================================== *)

Record User : Type := {
  email : string;
  id : string
}.

(** Stored authentication tokens; [expiresAt] is a Unix timestamp in
    seconds. *)
Record StoredAuth : Type := {
  accessToken : string;
  refreshToken : string;
  expiresAt : jsnum;
  user : User
}.

(** Authentication status returned by [checkAuth]; the optional fields
    carry the [Status] prefix because [email] and [expiresAt] already name
    the fields of [User] and [StoredAuth]. *)
Record AuthStatus : Type := {
  authenticated : bool;
  Status_email : option string;
  Status_expiresAt : option jsnum;
  isExpired : bool
}.

Record QuiboConfig : Type := {
  backendUrl : string;
  supabaseUrl : string;
  supabaseAnonKey : string;
  auth : option StoredAuth
}.

(** OAuth callback parameters received from the identity provider. *)
Record OAuthCallbackParams : Type := {
  access_token : option string;
  refresh_token : option string;
  expires_in : option string;
  token_type : option string;
  error : option string;
  error_description : option string
}.

(* ===================================================================== *)
(** ** config.ts: the store *)
(* ===================================================================== *)

Module Config.

Definition getBackendUrl (store : QuiboConfig) : string := backendUrl store.

(** [getSupabaseUrl()] and [getSupabaseAnonKey()]: an empty setting is an
    error. *)
Definition getSupabaseUrl (store : QuiboConfig) : completion string :=
  if truthy (Some (supabaseUrl store)) then Return (supabaseUrl store)
  else Throw (Error "SUPABASE_URL environment variable is required").

Definition getSupabaseAnonKey (store : QuiboConfig) : completion string :=
  if truthy (Some (supabaseAnonKey store)) then Return (supabaseAnonKey store)
  else Throw (Error "SUPABASE_ANON_KEY environment variable is required").

(** The record as the store holds it.  The store is a JSON file that is
    written on every [set] and read on every [get], so what is read back is
    what JSON makes of the record: an expiry that is NaN or an infinity
    comes back as [null]. *)
Definition persisted (a : StoredAuth) : StoredAuth :=
  {| accessToken := accessToken a;
     refreshToken := refreshToken a;
     expiresAt := json_number (expiresAt a);
     user := user a |}.

(** [store.set('auth', auth)] *)
Definition setAuth (a : StoredAuth) (store : QuiboConfig) : QuiboConfig :=
  {| backendUrl := backendUrl store;
     supabaseUrl := supabaseUrl store;
     supabaseAnonKey := supabaseAnonKey store;
     auth := Some (persisted a) |}.

(** [store.get('auth')] *)
Definition getAuth (store : QuiboConfig) : option StoredAuth := auth store.

(** [store.delete('auth')] *)
Definition clearAuth (store : QuiboConfig) : QuiboConfig :=
  {| backendUrl := backendUrl store;
     supabaseUrl := supabaseUrl store;
     supabaseAnonKey := supabaseAnonKey store;
     auth := None |}.

End Config.

(* ===================================================================== *)
(** ** auth.ts *)
(* ===================================================================== *)

Module Auth.

(** *** Port discovery *)

(** What [server.listen(port)] on a fresh server leads to: the
    ['listening'] callback, with the port that [server.address()] then
    reports, or an ['error'] event with the error's [code]. *)
Inductive BindOutcome : Type :=
| Listening (port : Z)
| BindError (code : string).

(** The code of the port-in-use error. *)
Definition EADDRINUSE : string := "EADDRINUSE".

(** [findAvailablePort(startPort)].  The recursion of the source has no
    bound; [fuel] bounds the number of probes, and a search that is still
    probing when the fuel runs out is a promise still pending. *)
Fixpoint findAvailablePort (fuel : nat) (listen : Z -> BindOutcome)
    (startPort : Z) : settled Z :=
  match fuel with
  | O => Pending
  | S fuel' =>
      match listen startPort with
      | Listening port => Resolved port
      | BindError code =>
          if String.eqb code EADDRINUSE
          then findAvailablePort fuel' listen (startPort + 1)
          else Rejected (SystemError code)
      end
  end.

Definition defaultStartPort : Z := 54321.

(** *** The callback server *)

Definition CallbackTimeout : JsError :=
  Error "OAuth callback timeout after 5 minutes".

(** What the runtime delivers to the callback server: a request (its
    URL already parsed into path and query), the expiry of the five
    minute timer, or an ['error'] event of the server. *)
Inductive Event : Type :=
| Request (pathname : string) (query : OAuthCallbackParams)
| TimerFired
| ServerError (e : JsError).

(** What the handler writes back. *)
Inductive Reply : Type :=
| FailedPage (detail : string)
| SuccessPage
| NotFound.

(** The state [startCallbackServer] closes over: the promise it
    returned, whether the timer is still armed, whether the server
    still accepts connections, and the replies written so far. *)
Record Listener : Type := {
  promise : settled OAuthCallbackParams;
  timerArmed : bool;
  accepting : bool;
  replies : list Reply
}.

Definition started : Listener :=
  {| promise := Pending; timerArmed := true; accepting := true; replies := [] |}.

(** [params.error_description || params.error], once [params.error] is
    known to be the truthy string [err]. *)
Definition describe (params : OAuthCallbackParams) (err : string) : string :=
  or_else (error_description params) err.

(** One event.  [server.close()] stops new connections only, and a
    request on a connection that is already open still reaches the
    handler: the handler runs for every request event.  A timer that was
    cleared, or has fired, does not fire. *)
Definition handle (l : Listener) (ev : Event) : Listener :=
  match ev with
  | TimerFired =>
      if timerArmed l
      then {| promise := reject (promise l) CallbackTimeout;
              timerArmed := false;
              accepting := false;
              replies := replies l |}
      else l
  | Request pathname params =>
      if String.eqb pathname "/callback"
      then {| promise := resolve (promise l) params;
              timerArmed := false;
              accepting := false;
              replies := replies l ++
                [match present (error params) with
                 | Some err => FailedPage (describe params err)
                 | None => SuccessPage
                 end] |}
      else {| promise := promise l;
              timerArmed := timerArmed l;
              accepting := accepting l;
              replies := replies l ++ [NotFound] |}
  | ServerError e =>
      {| promise := reject (promise l) e;
         timerArmed := false;
         accepting := accepting l;
         replies := replies l |}
  end.

Definition run (evs : list Event) : Listener := fold_left handle evs started.

(** [startCallbackServer(port)]: the promise after the events. *)
Definition startCallbackServer (evs : list Event) : settled OAuthCallbackParams :=
  promise (run evs).

(** *** The login flow *)

(** The identity provider's answers. *)
Record OAuthResponse : Type := {
  data_url : option string;
  oauth_error : option string
}.

Record SupabaseUser : Type := {
  supabase_email : option string;
  supabase_id : string
}.

Record SessionResponse : Type := {
  session_user : option SupabaseUser;
  session_error : option string
}.

(** A Supabase client, as far as the flow uses it: the two settings it
    was made from. *)
Record SupabaseClient : Type := {
  clientUrl : string;
  clientKey : string
}.

(** Everything outside the process that one login attempt meets. *)
Record World : Type := {
  createClient : string -> string -> completion SupabaseClient;
  listen : Z -> BindOutcome;
  signInWithOAuth : string -> OAuthResponse;
  events : list Event;
  setSession : string -> string -> SessionResponse;
  Date_now : Z
}.

(** [getSupabaseClient()], on the module's variable [supabaseClient]: the
    client made earlier if there is one, and otherwise a new one from the
    settings, read URL first, and kept.  The completion comes with the
    variable as the call leaves it. *)
Definition getSupabaseClient (w : World) (supabaseClient : option SupabaseClient)
    (store : QuiboConfig) : completion SupabaseClient * option SupabaseClient :=
  match supabaseClient with
  | Some client => (Return client, Some client)
  | None =>
      match Config.getSupabaseUrl store with
      | Throw e => (Throw e, None)
      | Return url =>
          match Config.getSupabaseAnonKey store with
          | Throw e => (Throw e, None)
          | Return key =>
              match createClient w url key with
              | Throw e => (Throw e, None)
              | Return client => (Return client, Some client)
              end
          end
      end
  end.

Definition MissingTokensInCallback : JsError :=
  Error "Missing access_token or refresh_token in OAuth callback".

Definition OAuthProviderError (description : string) : JsError :=
  Error ("OAuth authentication failed: " ++ description).

Definition AuthUrlMissing (r : OAuthResponse) : JsError :=
  Error ("Failed to generate OAuth URL: " ++ or_else (oauth_error r) "Unknown error").

Definition SessionExchangeFailed (r : SessionResponse) : JsError :=
  Error ("Failed to establish session: " ++ or_else (session_error r) "Unknown error").

(** The part of [authenticate()] that follows the callback. *)
Definition completeLogin (w : World) (store : QuiboConfig)
    (callbackParams : OAuthCallbackParams) : settled unit * QuiboConfig :=
  match present (error callbackParams) with
  | Some err => (Rejected (OAuthProviderError (describe callbackParams err)), store)
  | None =>
      let expiresIn := parseInt (or_else (expires_in callbackParams) "3600") in
      match present (access_token callbackParams),
            present (refresh_token callbackParams) with
      | Some accessToken, Some refreshToken =>
          let r := setSession w accessToken refreshToken in
          match session_error r, session_user r with
          | None, Some u =>
              let a := {| accessToken := accessToken;
                          refreshToken := refreshToken;
                          expiresAt := add (Num (floor_div_1000 (Date_now w))) expiresIn;
                          user := {| email := or_else (supabase_email u) "";
                                     id := supabase_id u |} |} in
              (Resolved tt, Config.setAuth a store)
          | _, _ => (Rejected (SessionExchangeFailed r), store)
          end
      | _, _ => (Rejected MissingTokensInCallback, store)
      end
  end.

Definition redirectUrl (port : Z) : string :=
  "http://localhost:" ++ pretty port ++ "/callback".

(** [authenticate()], from the first await on. *)
Definition login (fuel : nat) (w : World) (store : QuiboConfig)
    : settled unit * QuiboConfig :=
  match findAvailablePort fuel (listen w) defaultStartPort with
  | Pending => (Pending, store)
  | Rejected e => (Rejected e, store)
  | Resolved port =>
      let r := signInWithOAuth w (redirectUrl port) in
      if is_Some_bool (oauth_error r) || negb (truthy (data_url r))
      then (Rejected (AuthUrlMissing r), store)
      else
        match startCallbackServer (events w) with
        | Pending => (Pending, store)
        | Rejected e => (Rejected e, store)
        | Resolved callbackParams => completeLogin w store callbackParams
        end
  end.

(** [authenticate()]: the promise it returns and the store it leaves,
    given the module's variable [supabaseClient] as the call finds it.
    Its first statement is [getSupabaseClient()], whose throw rejects the
    promise.  [open(url).catch(...)] always fulfils and only logs, so
    [Promise.all] settles as the callback server's promise does. *)
Definition authenticate (fuel : nat) (w : World)
    (supabaseClient : option SupabaseClient) (store : QuiboConfig)
    : settled unit * QuiboConfig :=
  match fst (getSupabaseClient w supabaseClient store) with
  | Throw e => (Rejected e, store)
  | Return supabase => login fuel w store
  end.

(** The module's variable [supabaseClient] as [authenticate()] leaves
    it. *)
Definition clientAfter (w : World) (supabaseClient : option SupabaseClient)
    (store : QuiboConfig) : option SupabaseClient :=
  snd (getSupabaseClient w supabaseClient store).

(** The flow gets as far as waiting for the callback: there is a client,
    a port was found and the provider returned an authorization URL. *)
Definition awaitsCallback (fuel : nat) (w : World)
    (supabaseClient : option SupabaseClient) (store : QuiboConfig) : Prop :=
  (exists client, fst (getSupabaseClient w supabaseClient store) = Return client)
  /\ exists port,
    findAvailablePort fuel (listen w) defaultStartPort = Resolved port
    /\ oauth_error (signInWithOAuth w (redirectUrl port)) = None
    /\ truthy (data_url (signInWithOAuth w (redirectUrl port))) = true.

(** A request for some path other than the callback path. *)
Definition elsewhere (ev : Event) : Prop :=
  match ev with
  | Request pathname _ => pathname <> "/callback"
  | _ => False
  end.

(** *** Token access *)

(** The errors of the token accessor, by their message. *)
Definition NotAuthenticated : JsError :=
  Error "Not authenticated. Please run authentication first.".
Definition TokenExpired : JsError :=
  Error "Access token has expired. Please re-authenticate.".

(** [checkAuth()]; [ms] is the reading of [Date.now()]. *)
Definition checkAuth (store : QuiboConfig) (ms : Z) : AuthStatus :=
  match Config.getAuth store with
  | None =>
      {| authenticated := false;
         Status_email := None;
         Status_expiresAt := None;
         isExpired := true |}
  | Some a =>
      let now := floor_div_1000 ms in
      let expired := ge (Num now) (expiresAt a) in
      {| authenticated := negb expired;
         Status_email := Some (email (user a));
         Status_expiresAt := Some (expiresAt a);
         isExpired := expired |}
  end.

(** [getAccessToken()] *)
Definition getAccessToken (store : QuiboConfig) (ms : Z) : completion string :=
  match Config.getAuth store with
  | None => Throw NotAuthenticated
  | Some a =>
      let now := floor_div_1000 ms in
      if ge (Num now) (expiresAt a) then Throw TokenExpired
      else Return (accessToken a)
  end.

(** [clearAuth()] *)
Definition clearAuth (store : QuiboConfig) : QuiboConfig :=
  Config.clearAuth store.

End Auth.


(* ===================================================================== *)
(** ** api.ts *)
(* ===================================================================== *)

Module Api.

(** A headers object, as every caller in the module passes one: a plain
    object, here its properties, each name once, in the order in which
    they were first set.  [fetch] reads the properties in that order, but
    for names that are array indices, which it reads first; names that
    differ in the case of letters only are no array indices, so among them
    the order of the list is the order of reading. *)
Definition HeadersObject : Type := list (string * string).

(** [obj[name]] *)
Fixpoint property (name : string) (obj : HeadersObject) : option string :=
  match obj with
  | [] => None
  | (key, value) :: others =>
      if String.eqb key name then Some value else property name others
  end.

(** [obj[name] = value]: a property that is there keeps its place and
    takes the value, a new one goes to the end. *)
Fixpoint assign (name value : string) (obj : HeadersObject) : HeadersObject :=
  match obj with
  | [] => [(name, value)]
  | (key, old) :: others =>
      if String.eqb key name then (key, value) :: others
      else (key, old) :: assign name value others
  end.

(** [{ ...target, ...source }]: the properties of [source] are assigned
    one after the other. *)
Definition spread (target source : HeadersObject) : HeadersObject :=
  fold_left (fun obj entry => assign (fst entry) (snd entry) obj) source target.

(** The values that [fetch] files under a header name, in the order in
    which it sends them (joined by a comma and a space).  Header names do
    not tell upper case from lower case, so properties that differ in case
    only go under one name, their values one after the other. *)
Definition lowerName (name : string) : string :=
  string_of_list_ascii
    (map (fun c => let n := nat_of_ascii c in
                   if (Nat.leb 65 n && Nat.leb n 90)%bool
                   then ascii_of_nat (n + 32) else c)
         (list_ascii_of_string name)).

Definition fieldValues (name : string) (obj : HeadersObject) : list string :=
  map snd (List.filter (fun entry => String.eqb (lowerName (fst entry)) (lowerName name))
                       obj).

(** [RequestInit], as far as this client uses it.  A body is kept as the
    value handed to [JSON.stringify]: the fields of an object, an
    undefined field being left out by the serializer. *)
Record RequestInit : Type := {
  method : option string;
  headers : option HeadersObject;
  body : option (list (string * option string))
}.

(** [options = {}] *)
Definition noOptions : RequestInit :=
  {| method := None; headers := None; body := None |}.

Record Response : Type := {
  status : Z;
  content_type : option string;
  text : string
}.

(** [response.ok] *)
Definition ok (r : Response) : bool := (200 <=? status r) && (status r <=? 299).

(** What [await fetch(url, init)] does: a response, or a thrown error. *)
Inductive FetchOutcome : Type :=
| Responds (r : Response)
| Fails (e : JsError).

Definition SessionExpired : JsError :=
  ApiError "Your session has expired. Please re-authenticate using the authenticate tool."
           401 None.

Definition ConnectionFailed (backendUrl : string) : JsError :=
  Error ("Failed to connect to Quibo backend at " ++ backendUrl
         ++ ". Please check your network connection and backend URL.").

(** The object literal [{ Authorization: `Bearer ${token}`, ...options.headers }];
    spreading [undefined] adds nothing. *)
Definition mergeHeaders (token : string) (options : RequestInit) : HeadersObject :=
  spread [("Authorization", "Bearer " ++ token)] (default [] (headers options)).

(** The second argument of [fetch]: [{ ...options, headers: {...} }]. *)
Definition requestInit (token : string) (options : RequestInit) : RequestInit :=
  {| method := method options;
     headers := Some (mergeHeaders token options);
     body := body options |}.

(** The ordered rules that name the resource of a 404. *)
Definition resourceName (endpoint : string) : string :=
  if includes endpoint "/projects/" then "Project"
  else if includes endpoint "/outline/" then "Outline"
  else if includes endpoint "/section/" then "Section"
  else "Resource".

Definition notFound (endpoint : string) (text : string) : JsError :=
  ApiError (resourceName endpoint ++ " not found. "
            ++ or_else (Some text) "The requested resource does not exist.")
           404 (Some text).

Section Request.

(** [JSON.parse] and property access on its result are taken as given:
    [JSON_parse] is [None] on a syntax error, and [member j k] is the
    text of [j.k] when it is truthy, [Return None] when it is falsy,
    and a throw when [j] has no properties to read ([null]). *)
Variable Json : Type.
Variable JSON_parse : string -> option Json.
Variable member : Json -> string -> completion (option string).

Inductive Payload : Type :=
| JsonPayload (j : Json)
| TextPayload (s : string).

(** The [catch] of the inner [try]: the raw text, when there is any. *)
Definition withText (errorMessage text : string) : string :=
  if truthy (Some text) then errorMessage ++ ": " ++ text else errorMessage.

Definition httpErrorMessage (r : Response) : string :=
  let errorMessage := "API request failed with status " ++ pretty (status r) in
  match JSON_parse (text r) with
  | None => withText errorMessage (text r)
  | Some json =>
      match member json "detail" with
      | Throw _ => withText errorMessage (text r)
      | Return (Some detail) => errorMessage ++ ": " ++ detail
      | Return None =>
          match member json "message" with
          | Throw _ => withText errorMessage (text r)
          | Return (Some message) => errorMessage ++ ": " ++ message
          | Return None => errorMessage
          end
      end
  end.

(** The body of the outer [try], from the response on. *)
Definition classify (endpoint : string) (r : Response) : completion Payload :=
  if status r =? 401 then Throw SessionExpired
  else if status r =? 404 then Throw (notFound endpoint (text r))
  else if negb (ok r) then Throw (ApiError (httpErrorMessage r) (status r) (Some (text r)))
  else
    match content_type r with
    | Some contentType =>
        if includes contentType "application/json"
        then match JSON_parse (text r) with
             | Some j => Return (JsonPayload j)
             | None => Throw (SyntaxError "Unexpected token in JSON")
             end
        else Return (TextPayload (text r))
    | None => Return (TextPayload (text r))
    end.

(** The outer [catch]. *)
Definition rethrow (backendUrl : string) (e : JsError) : JsError :=
  match e with
  | ApiError _ _ _ => e
  | TypeError message =>
      if includes message "fetch" then ConnectionFailed backendUrl else e
  | _ => e
  end.

(** [makeRequest(endpoint, options)] against a store, a clock reading
    and a network. *)
Definition makeRequest (store : QuiboConfig) (ms : Z)
    (fetch : string -> RequestInit -> FetchOutcome)
    (endpoint : string) (options : RequestInit) : completion Payload :=
  let backendUrl := Config.getBackendUrl store in
  let url := backendUrl ++ endpoint in
  match Auth.getAccessToken store ms with
  | Throw e => Throw (rethrow backendUrl e)
  | Return token =>
      match fetch url (requestInit token options) with
      | Fails e => Throw (rethrow backendUrl e)
      | Responds response =>
          match classify endpoint response with
          | Throw e => Throw (rethrow backendUrl e)
          | Return v => Return v
          end
      end
  end.

Definition jsonPost (fields : list (string * option string)) : RequestInit :=
  {| method := Some "POST";
     headers := Some [("Content-Type", "application/json")];
     body := Some fields |}.

(** [regenerateOutline(projectName, feedback, focusArea)] *)
Definition regenerateOutline_endpoint (projectName : string) : string :=
  "/api/v2/projects/" ++ encodeURIComponent projectName ++ "/outline/regenerate".

Definition regenerateOutline (store : QuiboConfig) (ms : Z)
    (fetch : string -> RequestInit -> FetchOutcome)
    (projectName feedback : string) (focusArea : option string) : completion Payload :=
  makeRequest store ms fetch (regenerateOutline_endpoint projectName)
    (jsonPost [("feedback", Some feedback); ("focus_area", focusArea)]).

(** [getProjectStatus(projectId)] and [resumeProject(projectId)] *)
Definition getProjectStatus (store : QuiboConfig) (ms : Z)
    (fetch : string -> RequestInit -> FetchOutcome)
    (projectId : string) : completion Payload :=
  makeRequest store ms fetch ("/project_status/" ++ encodeURIComponent projectId) noOptions.

Definition resumeProject (store : QuiboConfig) (ms : Z)
    (fetch : string -> RequestInit -> FetchOutcome)
    (projectId : string) : completion Payload :=
  makeRequest store ms fetch ("/resume/" ++ encodeURIComponent projectId) noOptions.

(** [listProjects(status)] *)
Definition listProjects_endpoint (status : option string) : string :=
  let queryString :=
    match present status with
    | Some st => "status=" ++ form_urlencode st
    | None => ""
    end in
  if truthy (Some queryString) then "/projects?" ++ queryString else "/projects".

Definition listProjects (store : QuiboConfig) (ms : Z)
    (fetch : string -> RequestInit -> FetchOutcome)
    (status : option string) : completion Payload :=
  makeRequest store ms fetch (listProjects_endpoint status) noOptions.

(** [compileDraft(projectName, jobId)] *)
Definition compileDraft (store : QuiboConfig) (ms : Z)
    (fetch : string -> RequestInit -> FetchOutcome)
    (projectName jobId : string) : completion Payload :=
  makeRequest store ms fetch ("/compile_draft/" ++ encodeURIComponent projectName)
    (jsonPost [("job_id", Some jobId)]).

(** [generateSocialContent(projectName)] *)
Definition generateSocialContent (store : QuiboConfig) (ms : Z)
    (fetch : string -> RequestInit -> FetchOutcome)
    (projectName : string) : completion Payload :=
  makeRequest store ms fetch
    ("/generate_social_content/" ++ encodeURIComponent projectName)
    {| method := Some "POST"; headers := None; body := None |}.

End Request.

End Api.

(* ===================================================================== *)
(** ** index.ts: resource addresses and file types *)
(* ===================================================================== *)

Module Server.

(** [s.split(sep)] for a separator of one character: the pieces between
    the separators, of which there is always at least one. *)
Fixpoint split (sep : ascii) (s : string) : list string :=
  match s with
  | EmptyString => [EmptyString]
  | String c rest =>
      if Ascii.eqb c sep then EmptyString :: split sep rest
      else match split sep rest with
           | piece :: pieces => String c piece :: pieces
           | [] => [String c EmptyString]
           end
  end.

(** [pieces.join(sep)] *)
Fixpoint join (sep : ascii) (pieces : list string) : string :=
  match pieces with
  | [] => EmptyString
  | [piece] => piece
  | piece :: others => piece ++ String sep (join sep others)
  end.

(** [pieces.pop()]: the last piece, undefined for an empty array. *)
Definition pop (pieces : list string) : option string := last pieces.

(** [s.toLowerCase()], on the letters A to Z; no character outside ASCII
    has a lower-case form made of the letters the code compares with. *)
Definition lowerChar (c : ascii) : ascii :=
  let n := nat_of_ascii c in
  if (Nat.leb 65 n && Nat.leb n 90)%bool then ascii_of_nat (n + 32) else c.

Fixpoint toLowerCase (s : string) : string :=
  match s with
  | String c rest => String (lowerChar c) (toLowerCase rest)
  | EmptyString => EmptyString
  end.

(** [getMimeType(fileName)] *)
Definition getMimeType (fileName : string) : string :=
  match option_map toLowerCase (pop (split "." fileName)) with
  | Some ext =>
      if String.eqb ext "ipynb" then "application/x-ipynb+json"
      else if String.eqb ext "md" then "text/markdown"
      else if String.eqb ext "py" then "text/x-python"
      else if String.eqb ext "txt" then "text/plain"
      else "application/octet-stream"
  | None => "application/octet-stream"
  end.

(** [filePath.split('/').pop() || 'unknown'], the file name that
    [handleSetupProject] gives to an uploaded file. *)
Definition fileNameOf (filePath : string) : string :=
  or_else (pop (split "/" filePath)) "unknown".

(** [s] without the prefix [p], when it starts with [p]. *)
Fixpoint stripPrefix (p s : string) : option string :=
  match p, s with
  | EmptyString, _ => Some s
  | String a p', String b s' => if Ascii.eqb a b then stripPrefix p' s' else None
  | String _ _, EmptyString => None
  end.

(** A match of [[^/]+] that must reach the end of the text: at least one
    character and no slash. *)
Definition isSegment (s : string) : bool :=
  negb (String.eqb s "") && Nat.eqb (count_char "/" s) 0.

(** [uri.match(/^quibo:\/\/projects\/[^/]+$/)] *)
Definition matchesProject (uri : string) : bool :=
  match stripPrefix "quibo://projects/" uri with
  | Some rest => isSegment rest
  | None => false
  end.

(** [uri.match(/^quibo:\/\/projects\/[^/]+\/outline$/)], and the same with
    [draft]: after the prefix, one segment, a slash and the word. *)
Definition matchesChild (child uri : string) : bool :=
  match stripPrefix "quibo://projects/" uri with
  | Some rest =>
      match split "/" rest with
      | [segment; tail] => isSegment segment && String.eqb tail child
      | _ => false
      end
  | None => false
  end.

(** Which reader the [ReadResource] handler calls, and with which
    project id; an address it does not know makes it fail with an error
    that names the address. *)
Inductive Route : Type :=
| ProjectsList
| ProjectDetails (projectId : string)
| ProjectOutline (projectId : string)
| ProjectDraft (projectId : string)
| UnknownResource (e : JsError).

Definition route (uri : string) : Route :=
  if String.eqb uri "quibo://projects" then ProjectsList
  else if matchesProject uri
  then ProjectDetails (default "" (pop (split "/" uri)))
  else if matchesChild "outline" uri
  then ProjectOutline (default "" (split "/" uri !! 3%nat))
  else if matchesChild "draft" uri
  then ProjectDraft (default "" (split "/" uri !! 3%nat))
  else UnknownResource (Error ("Unknown resource URI: " ++ uri)).

(** The addresses that the readers of resources.ts put on what they
    return. *)
Definition projectUri (projectId : string) : string :=
  "quibo://projects/" ++ projectId.
Definition outlineUri (projectId : string) : string :=
  "quibo://projects/" ++ projectId ++ "/outline".
Definition draftUri (projectId : string) : string :=
  "quibo://projects/" ++ projectId ++ "/draft".

End Server.

(* ===================================================================== *)
(** ** Concrete stores, worlds and networks used in the examples *)
(* ===================================================================== *)

Definition session (expiry : Z) : StoredAuth :=
  {| accessToken := "header.payload.signature";
     refreshToken := "refresh";
     expiresAt := Num expiry;
     user := {| email := "user@example.com"; id := "u-1" |} |}.

Definition storeWith (a : option StoredAuth) : QuiboConfig :=
  {| backendUrl := "http://localhost:8000";
     supabaseUrl := "https://project.supabase.co";
     supabaseAnonKey := "anon-key";
     auth := a |}.

Definition twoBusy (port : Z) : Auth.BindOutcome :=
  if (port =? 54321) || (port =? 54322) then Auth.BindError Auth.EADDRINUSE
  else Auth.Listening port.


Definition freePorts (port : Z) : Auth.BindOutcome := Auth.Listening port.

Definition provider (redirectTo : string) : Auth.OAuthResponse :=
  {| Auth.data_url := Some ("https://idp.example/authorize?redirect_to=" ++ redirectTo);
     Auth.oauth_error := None |}.

Definition exchange (accessToken refreshToken : string) : Auth.SessionResponse :=
  {| Auth.session_user := Some {| Auth.supabase_email := Some "user@example.com";
                                  Auth.supabase_id := "u-1" |};
     Auth.session_error := None |}.

(** The query [access_token=a&refresh_token=b], with [expires_in] as given. *)
Definition callback (expires : option string) : OAuthCallbackParams :=
  {| access_token := Some "a";
     refresh_token := Some "b";
     expires_in := expires;
     token_type := None;
     error := None;
     error_description := None |}.

(** A [createClient] that accepts every pair of settings. *)
Definition newClient (url key : string) : completion Auth.SupabaseClient :=
  Return {| Auth.clientUrl := url; Auth.clientKey := key |}.

(** A [createClient] that refuses its URL. *)
Definition refusingClient (url key : string) : completion Auth.SupabaseClient :=
  Throw (Error "Invalid supabaseUrl: Must be a valid HTTP or HTTPS URL.").

(** The query [error=access_denied&access_token=a&refresh_token=b]. *)
Definition deniedCallback : OAuthCallbackParams :=
  {| access_token := Some "a";
     refresh_token := Some "b";
     expires_in := None;
     token_type := None;
     error := Some "access_denied";
     error_description := None |}.

Definition loginWorld (evs : list Auth.Event) (ms : Z) : Auth.World :=
  {| Auth.createClient := newClient;
     Auth.listen := freePorts;
     Auth.signInWithOAuth := provider;
     Auth.events := evs;
     Auth.setSession := exchange;
     Auth.Date_now := ms |}.


(** A store without the provider's settings. *)
Definition unconfigured (a : option StoredAuth) : QuiboConfig :=
  {| backendUrl := "http://localhost:8000";
     supabaseUrl := "";
     supabaseAnonKey := "";
     auth := a |}.

Definition loggedIn (expiry : Z) : StoredAuth :=
  {| accessToken := "a";
     refreshToken := "b";
     expiresAt := Num expiry;
     user := {| email := "user@example.com"; id := "u-1" |} |}.

(** A backend that answers every request with a 404 and the given body. *)
Definition always404 (body : string) (url : string) (init : Api.RequestInit)
    : Api.FetchOutcome :=
  Api.Responds {| Api.status := 404; Api.content_type := Some "application/json";
                  Api.text := body |}.

(** A [JSON.parse] that accepts nothing, over [unit]. *)
Definition noJson (s : string) : option unit := None.

Definition noMember (j : unit) (key : string) : completion (option string) :=
  Return None.

Definition withOwnAuthorization : Api.RequestInit :=
  {| Api.method := Some "GET";
     Api.headers := Some [("Authorization", "Basic dXNlcjpwdw==")];
     Api.body := None |}.

(** A provider that answers with an error and no URL. *)
Definition failingProvider (redirectTo : string) : Auth.OAuthResponse :=
  {| Auth.data_url := None; Auth.oauth_error := Some "provider is not enabled" |}.

(** A world in which no client can be made. *)
Definition clientlessWorld : Auth.World :=
  {| Auth.createClient := refusingClient;
     Auth.listen := freePorts;
     Auth.signInWithOAuth := provider;
     Auth.events := [Auth.Request "/callback" (callback None)];
     Auth.setSession := exchange;
     Auth.Date_now := 1700000000123 |}.

(** An exchange that the provider rejects. *)
Definition rejectingExchange (accessToken refreshToken : string) : Auth.SessionResponse :=
  {| Auth.session_user := None; Auth.session_error := Some "invalid JWT" |}.

Definition worldWith (provide : string -> Auth.OAuthResponse)
    (exchangeTokens : string -> string -> Auth.SessionResponse)
    (evs : list Auth.Event) : Auth.World :=
  {| Auth.createClient := newClient;
     Auth.listen := freePorts;
     Auth.signInWithOAuth := provide;
     Auth.events := evs;
     Auth.setSession := exchangeTokens;
     Auth.Date_now := 1700000000123 |}.

(** The number of requests among the events. *)
Definition isRequest (ev : Auth.Event) : bool :=
  match ev with
  | Auth.Request _ _ => true
  | _ => false
  end.

(** A backend that answers every request with the given status and body. *)
Definition answering (code : Z) (contentType : option string) (body : string)
    (url : string) (init : Api.RequestInit) : Api.FetchOutcome :=
  Api.Responds {| Api.status := code; Api.content_type := contentType;
                  Api.text := body |}.

(** A network that cannot be reached. *)
Definition unreachable (url : string) (init : Api.RequestInit) : Api.FetchOutcome :=
  Api.Fails (TypeError "fetch failed").

(** The query [access_token=a] alone: no refresh token, no error. *)
Definition halfCallback : OAuthCallbackParams :=
  {| access_token := Some "a";
     refresh_token := None;
     expires_in := None;
     token_type := None;
     error := None;
     error_description := None |}.

(** A backend that answers 200 and, as its text, what the observer reads
    off the request it was handed. *)
Definition reporting (observe : string -> Api.RequestInit -> string)
    (url : string) (init : Api.RequestInit) : Api.FetchOutcome :=
  Api.Responds {| Api.status := 200; Api.content_type := None;
                  Api.text := observe url init |}.

(** What a server reads under [Authorization] in a request: the values
    filed under the name, joined by a comma and a space. *)
Definition authorizationSent (url : string) (init : Api.RequestInit) : string :=
  String.concat ", " (Api.fieldValues "Authorization" (default [] (Api.headers init))).

(** Options whose headers spell the name in lower case. *)
Definition withLowerCaseAuthorization : Api.RequestInit :=
  {| Api.method := Some "GET";
     Api.headers := Some [("authorization", "Basic dXNlcjpwdw==")];
     Api.body := None |}.

Example parseInt_10 : parseInt "10" = Num 10.
Proof. reflexivity. Qed.
Example parseInt_neg : parseInt "  -42abc" = Num (-42).
Proof. reflexivity. Qed.
Example parseInt_nan : parseInt "abc" = NaN.
Proof. reflexivity. Qed.
Example parseInt_empty : parseInt "" = NaN.
Proof. reflexivity. Qed.
Example includes_ex : includes "/api/v2/projects/x/outline/regenerate" "/outline/" = true.
Proof. reflexivity. Qed.
Example encode_ex : encodeURIComponent "a b/c" = "a%20b%2Fc".
Proof. reflexivity. Qed.
Example form_ex : form_urlencode "a b/c" = "a+b%2Fc".
Proof. reflexivity. Qed.
Example list_ex : Api.listProjects_endpoint (Some "in progress") = "/projects?status=in+progress".
Proof. reflexivity. Qed.

(* ===================================================================== *)
(** ** Facts about the primitives *)
(* ===================================================================== *)

Section StringFacts.

Lemma app_cons (c : ascii) (a b : string) : String c a ++ b = String c (a ++ b).
Proof. reflexivity. Qed.

Lemma app_empty_l (b : string) : "" ++ b = b.
Proof. reflexivity. Qed.

Lemma app_empty_r (a : string) : a ++ "" = a.
Proof. induction a as [|c a IH]; [reflexivity | now rewrite app_cons, IH]. Qed.

Lemma app_assoc_string (a b c : string) : (a ++ b) ++ c = a ++ (b ++ c).
Proof.
  induction a as [|x a IH]; [reflexivity|].
  now rewrite !app_cons, IH.
Qed.

Lemma prefix_app (sub post : string) : String.prefix sub (sub ++ post) = true.
Proof.
  induction sub as [|c sub IH].
  - now destruct post.
  - rewrite app_cons. simpl.
    destruct (ascii_dec c c) as [_|ne]; [exact IH | now elim ne].
Qed.

Lemma prefix_split (sub s : string) :
  String.prefix sub s = true -> exists post, s = sub ++ post.
Proof.
  revert s. induction sub as [|c sub IH]; intros s H.
  - now exists s.
  - destruct s as [|d s]; simpl in H; [discriminate|].
    destruct (ascii_dec c d) as [->|]; [|discriminate].
    destruct (IH s H) as [post ->]. now exists post.
Qed.

(** [includes] finds every occurrence there is. *)
Lemma includes_intro (pre sub post : string) :
  includes (pre ++ sub ++ post) sub = true.
Proof.
  induction pre as [|c pre IH].
  - rewrite app_empty_l.
    assert (P := prefix_app sub post).
    destruct (sub ++ post); cbn [includes]; now rewrite P.
  - rewrite app_cons. cbn [includes].
    destruct (String.prefix sub (String c (pre ++ sub ++ post))); [reflexivity | exact IH].
Qed.

(** ... and nothing else: [includes] is "contains". *)
Lemma includes_elim (s sub : string) :
  includes s sub = true -> exists pre post, s = pre ++ sub ++ post.
Proof.
  induction s as [|c s IH]; intros H.
  - destruct (String.prefix sub "") eqn:E.
    + destruct (prefix_split _ _ E) as [post ->]. now exists "", post.
    + cbn [includes] in H. rewrite E in H. discriminate.
  - destruct (String.prefix sub (String c s)) eqn:E.
    + destruct (prefix_split _ _ E) as [post ->]. now exists "", post.
    + cbn [includes] in H. rewrite E in H.
      destruct (IH H) as (pre & post & ->). now exists (String c pre), post.
Qed.

Lemma includes_suffix (pre sub : string) : includes (pre ++ sub) sub = true.
Proof.
  rewrite <- (app_empty_r sub) at 1. apply includes_intro.
Qed.

Lemma count_char_app (c : ascii) (a b : string) :
  count_char c (a ++ b) = (count_char c a + count_char c b)%nat.
Proof.
  induction a as [|d a IH]; [reflexivity|].
  rewrite app_cons. cbn [count_char]. rewrite IH. lia.
Qed.

Lemma includes_count (c : ascii) (s sub : string) :
  includes s sub = true -> (count_char c sub <= count_char c s)%nat.
Proof.
  intros H. destruct (includes_elim _ _ H) as (pre & post & ->).
  rewrite !count_char_app. lia.
Qed.

Lemma hex_digit_not_slash (n : N) : Ascii.eqb "/" (hex_digit n) = false.
Proof.
  unfold hex_digit.
  destruct n as [|p]; [reflexivity|].
  do 4 (destruct p as [p|p|]; try reflexivity).
Qed.

Lemma percent_no_slash (c : ascii) : count_char "/" (percent c) = 0%nat.
Proof.
  unfold percent. cbn [count_char]. rewrite !hex_digit_not_slash. reflexivity.
Qed.

Lemma form_safe_not_slash (c : ascii) : form_safe c = true -> Ascii.eqb "/" c = false.
Proof.
  intros H. destruct (Ascii.eqb "/" c) eqn:E; [|reflexivity].
  apply Ascii.eqb_eq in E. subst c. discriminate H.
Qed.

(** The form serializer leaves no slash. *)
Lemma form_urlencode_no_slash (s : string) : count_char "/" (form_urlencode s) = 0%nat.
Proof.
  induction s as [|c s IH]; [reflexivity|].
  cbn [form_urlencode]. rewrite count_char_app, IH.
  destruct (Ascii.eqb c " "); [reflexivity|].
  destruct (form_safe c) eqn:E.
  - cbn [count_char]. now rewrite (form_safe_not_slash _ E).
  - now rewrite percent_no_slash.
Qed.

End StringFacts.

Section NumberFacts.

Lemma ge_Num (x y : Z) : ge (Num x) (Num y) = true <-> y <= x.
Proof. cbn. apply Z.leb_le. Qed.

Lemma ge_Num_false (x y : Z) : ge (Num x) (Num y) = false <-> x < y.
Proof. cbn. apply Z.leb_gt. Qed.

Lemma gt_Num (x y : Z) : gt (Num x) (Num y) = true <-> y < x.
Proof. cbn. rewrite negb_true_iff. apply Z.leb_gt. Qed.

(** [null] counts as 0 in a comparison. *)
Lemma ge_Null (x : Z) : ge (Num x) Null = true <-> 0 <= x.
Proof. cbn. apply Z.leb_le. Qed.

(** An integer of magnitude up to 2^53 is a double, and sums that stay
    there are exact. *)
Lemma round_double_safe (z : Z) : Z.abs z <= 2 ^ 53 -> round_double z = Num z.
Proof. intros H. unfold round_double. apply Z.leb_le in H. now rewrite H. Qed.

(** Neither rounding nor [parseInt] gives [null]. *)
Lemma round_double_not_Null (z : Z) : round_double z <> Null.
Proof.
  unfold round_double. destruct (Z.abs z <=? 2 ^ 53); [discriminate|].
  match goal with |- (if ?c then _ else _) <> _ => destruct c end; discriminate.
Qed.

Lemma parseInt_not_Null (s : string) : parseInt s <> Null.
Proof.
  unfold parseInt.
  destruct (match trimStart s with
            | String "-"%char rest => (-1, rest)
            | String "+"%char rest => (1, rest)
            | _ => (1, trimStart s)
            end) as [sign body].
  destruct (digits body None); [apply round_double_not_Null | discriminate].
Qed.

Lemma add_safe (x y : Z) :
  Z.abs (x + y) <= 2 ^ 53 -> add (Num x) (Num y) = Num (x + y).
Proof. intros H. cbn [add]. now apply round_double_safe. Qed.

Lemma truthy_present (v : option string) :
  truthy v = false -> present v = None.
Proof. unfold present. now intros ->. Qed.

Lemma present_truthy (v : option string) (s : string) :
  present v = Some s -> v = Some s /\ truthy v = true.
Proof. unfold present. destruct (truthy v); [now intros -> | discriminate]. Qed.

Lemma or_else_falsy (v : option string) (d : string) :
  truthy v = false -> or_else v d = d.
Proof.
  destruct v as [s|]; simpl; [|reflexivity].
  destruct (String.eqb s ""); [reflexivity | discriminate].
Qed.

End NumberFacts.

(* ===================================================================== *)
(** ** Token access and status *)
(* ===================================================================== *)

(** C1.  [getAccessToken()] throws the not-authenticated error when the
    store holds no session, throws the token-expired error when
    [now >= expiresAt], and in every other case returns the stored access
    token itself; the two errors are different errors. *)
Theorem getAccessToken_fails_or_returns_token (store : QuiboConfig) (ms : Z) :
  (Config.getAuth store = None ->
     Auth.getAccessToken store ms = Throw Auth.NotAuthenticated)
  /\ (forall a, Config.getAuth store = Some a ->
        ge (Num (floor_div_1000 ms)) (expiresAt a) = true ->
        Auth.getAccessToken store ms = Throw Auth.TokenExpired)
  /\ (forall a, Config.getAuth store = Some a ->
        ge (Num (floor_div_1000 ms)) (expiresAt a) = false ->
        Auth.getAccessToken store ms = Return (accessToken a))
  /\ (forall a e, Config.getAuth store = Some a -> expiresAt a = Num e ->
        (e <= floor_div_1000 ms ->
           Auth.getAccessToken store ms = Throw Auth.TokenExpired)
        /\ (floor_div_1000 ms < e ->
           Auth.getAccessToken store ms = Return (accessToken a)))
  /\ Auth.NotAuthenticated <> Auth.TokenExpired.
Proof.
  unfold Auth.getAccessToken.
  split; [now intros ->|].
  split; [now intros a -> ->|].
  split; [now intros a -> ->|].
  split; [|discriminate].
  intros a e -> ->. split; intros H.
  - apply ge_Num in H. now rewrite H.
  - apply ge_Num_false in H. now rewrite H.
Qed.

Lemma getAccessToken_fails_or_returns_token_witness :
  Auth.getAccessToken (storeWith (Some (session 2000))) 1000000
    = Return "header.payload.signature"
  /\ Auth.getAccessToken (storeWith (Some (session 1000))) 1000000
    = Throw Auth.TokenExpired
  /\ Auth.getAccessToken (storeWith None) 1000000
    = Throw Auth.NotAuthenticated.
Proof.
  split; [|split].
  - apply (proj1 (proj2 (proj2 (getAccessToken_fails_or_returns_token
             (storeWith (Some (session 2000))) 1000000))) (session 2000));
      reflexivity.
  - apply (proj1 (proj2 (getAccessToken_fails_or_returns_token
             (storeWith (Some (session 1000))) 1000000)) (session 1000));
      reflexivity.
  - apply (proj1 (getAccessToken_fails_or_returns_token (storeWith None) 1000000));
      reflexivity.
Defined.

(** C6.  [checkAuth()] depends on nothing but the stored session and the
    clock reading; without a session it reports not authenticated and
    expired; with a session expiring at the number [e] it reports
    [authenticated = (now < e)], so not authenticated and expired when
    [e <= now], and authenticated when [e > now]. *)
Theorem checkAuth_authenticated_iff_unexpired (store : QuiboConfig) (ms : Z) :
  (forall store' ms',
      Config.getAuth store' = Config.getAuth store ->
      floor_div_1000 ms' = floor_div_1000 ms ->
      Auth.checkAuth store' ms' = Auth.checkAuth store ms)
  /\ (Config.getAuth store = None ->
        authenticated (Auth.checkAuth store ms) = false
        /\ isExpired (Auth.checkAuth store ms) = true)
  /\ (forall a e, Config.getAuth store = Some a -> expiresAt a = Num e ->
        authenticated (Auth.checkAuth store ms) = (floor_div_1000 ms <? e)
        /\ (e <= floor_div_1000 ms ->
              authenticated (Auth.checkAuth store ms) = false
              /\ isExpired (Auth.checkAuth store ms) = true)
        /\ (e > floor_div_1000 ms ->
              authenticated (Auth.checkAuth store ms) = true)).
Proof.
  unfold Auth.checkAuth. split; [|split].
  - now intros store' ms' -> ->.
  - now intros ->.
  - intros a e -> ->. cbn [ge placeOf place_le authenticated isExpired].
    rewrite Z.leb_antisym, negb_involutive.
    split; [reflexivity|]. split.
    + intros H. apply Z.ltb_ge in H. now rewrite H.
    + intros H. apply Z.ltb_lt. lia.
Qed.

Lemma checkAuth_authenticated_iff_unexpired_witness :
  authenticated (Auth.checkAuth (storeWith (Some (session 2000))) 1000000) = true
  /\ (authenticated (Auth.checkAuth (storeWith (Some (session 1000))) 1000000) = false
      /\ isExpired (Auth.checkAuth (storeWith (Some (session 1000))) 1000000) = true)
  /\ (authenticated (Auth.checkAuth (storeWith None) 1000000) = false
      /\ isExpired (Auth.checkAuth (storeWith None) 1000000) = true).
Proof.
  split; [|split].
  - apply (proj2 (proj2 (proj2 (proj2 (checkAuth_authenticated_iff_unexpired
             (storeWith (Some (session 2000))) 1000000)) (session 2000) 2000
             eq_refl eq_refl))).
    reflexivity.
  - apply (proj1 (proj2 (proj2 (proj2 (checkAuth_authenticated_iff_unexpired
             (storeWith (Some (session 1000))) 1000000)) (session 1000) 1000
             eq_refl eq_refl))).
    vm_compute. discriminate.
  - apply (proj1 (proj2 (checkAuth_authenticated_iff_unexpired
             (storeWith None) 1000000))).
    reflexivity.
Defined.

(* ===================================================================== *)
(** ** Port discovery *)
(* ===================================================================== *)

(** C2.  When the probes on [P], ..., [P+N-1] all fail with the
    port-in-use code, a successful probe on [P+N] makes
    [findAvailablePort(P)] resolve with [P+N], and a probe on [P+N] that
    fails with any other code makes it reject with that error; [N+1]
    probes are all it takes. *)
Theorem findAvailablePort_skips_busy_ports
    (listen : Z -> Auth.BindOutcome) (P : Z) (N fuel : nat) :
  (forall i : nat, (i < N)%nat -> listen (P + Z.of_nat i) = Auth.BindError Auth.EADDRINUSE) ->
  (N < fuel)%nat ->
  (listen (P + Z.of_nat N) = Auth.Listening (P + Z.of_nat N) ->
     Auth.findAvailablePort fuel listen P = Resolved (P + Z.of_nat N))
  /\ (forall code, code <> Auth.EADDRINUSE ->
        listen (P + Z.of_nat N) = Auth.BindError code ->
        Auth.findAvailablePort fuel listen P = Rejected (SystemError code)).
Proof.
  revert P fuel. induction N as [|N IH]; intros P fuel busy enough.
  - destruct fuel as [|fuel]; [lia|]. cbn [Auth.findAvailablePort].
    rewrite Z.add_0_r. split.
    + now intros ->.
    + intros code ne ->. apply String.eqb_neq in ne. now rewrite ne.
  - destruct fuel as [|fuel]; [lia|]. cbn [Auth.findAvailablePort].
    assert (first := busy O ltac:(lia)). rewrite Z.add_0_r in first.
    rewrite first, String.eqb_refl.
    replace (P + Z.of_nat (S N)) with ((P + 1) + Z.of_nat N) by lia.
    apply IH; [|lia].
    intros i Hi. replace (P + 1 + Z.of_nat i) with (P + Z.of_nat (S i)) by lia.
    apply busy. lia.
Qed.

Lemma findAvailablePort_skips_busy_ports_witness :
  Auth.findAvailablePort 3 twoBusy 54321 = Resolved 54323.
Proof.
  apply (proj1 (findAvailablePort_skips_busy_ports twoBusy 54321 2 3
                  ltac:(intros [|[|i]] H; [reflexivity | reflexivity | lia])
                  ltac:(lia))).
  reflexivity.
Defined.

(* ===================================================================== *)
(** ** The callback server *)
(* ===================================================================== *)

Section ListenerFacts.

Import Auth.

Lemma run_app (pre post : list Event) :
  run (pre ++ post) = fold_left handle post (run pre).
Proof. unfold run. apply fold_left_app. Qed.

(** A settled promise stays as it is, whatever arrives. *)
Lemma handle_settled (l : Listener) (ev : Event) :
  promise l <> Pending -> promise (handle l ev) = promise l.
Proof.
  intros H. destruct ev as [pathname params| |e]; cbn [handle].
  - destruct (String.eqb pathname "/callback"); [|reflexivity].
    cbn [promise]. now destruct (promise l).
  - destruct (timerArmed l); [|reflexivity].
    cbn [promise]. now destruct (promise l).
  - cbn [promise]. now destruct (promise l).
Qed.

Lemma fold_settled (evs : list Event) (l : Listener) :
  promise l <> Pending -> promise (fold_left handle evs l) = promise l.
Proof.
  revert l. induction evs as [|ev evs IH]; intros l H; [reflexivity|].
  cbn [fold_left]. rewrite IH; rewrite handle_settled; auto.
Qed.

(** Requests for other paths change nothing but the replies. *)
Lemma handle_elsewhere (l : Listener) (ev : Event) :
  elsewhere ev ->
  promise (handle l ev) = promise l /\ timerArmed (handle l ev) = timerArmed l.
Proof.
  destruct ev as [pathname params| |e]; cbn [elsewhere]; [|contradiction..].
  intros ne. apply String.eqb_neq in ne. cbn [handle]. now rewrite ne.
Qed.

Lemma run_elsewhere (pre : list Event) :
  Forall elsewhere pre ->
  promise (run pre) = Pending /\ timerArmed (run pre) = true.
Proof.
  induction pre as [|ev pre IH] using rev_ind; intros H; [now split|].
  apply Forall_app in H as [Hpre Hev]. inversion_clear Hev as [|? ? Hev' _].
  rewrite run_app. cbn [fold_left].
  destruct (handle_elsewhere (run pre) ev Hev') as [-> ->]. now apply IH.
Qed.

(** The first callback request settles the promise with its query. *)
Lemma run_first_callback (pre post : list Event) (params : OAuthCallbackParams) :
  Forall elsewhere pre ->
  startCallbackServer (pre ++ Request "/callback" params :: post) = Resolved params.
Proof.
  intros H. unfold startCallbackServer. rewrite run_app. cbn [fold_left].
  destruct (run_elsewhere pre H) as [Hp _].
  rewrite fold_settled; cbn [handle String.eqb promise]; rewrite ?Hp; cbn;
    [reflexivity | discriminate].
Qed.

Lemma run_timeout (pre post : list Event) :
  Forall elsewhere pre ->
  startCallbackServer (pre ++ TimerFired :: post) = Rejected CallbackTimeout.
Proof.
  intros H. unfold startCallbackServer. rewrite run_app. cbn [fold_left].
  destruct (run_elsewhere pre H) as [Hp Ht].
  rewrite fold_settled; cbn [handle]; rewrite Ht; cbn [promise]; rewrite Hp;
    [reflexivity | discriminate].
Qed.

End ListenerFacts.

(* ===================================================================== *)
(** ** The login flow *)
(* ===================================================================== *)

Section LoginFacts.

Import Auth.

(** [authenticate()] is the login proper once there is a client. *)
Lemma authenticate_with_client (fuel : nat) (w : World)
    (supabaseClient : option SupabaseClient) (store : QuiboConfig)
    (client : SupabaseClient) :
  fst (getSupabaseClient w supabaseClient store) = Return client ->
  authenticate fuel w supabaseClient store = login fuel w store.
Proof. intros H. unfold authenticate. now rewrite H. Qed.

Lemma authenticate_awaits (fuel : nat) (w : World)
    (supabaseClient : option SupabaseClient) (store : QuiboConfig) :
  awaitsCallback fuel w supabaseClient store ->
  authenticate fuel w supabaseClient store =
    match startCallbackServer (events w) with
    | Pending => (Pending, store)
    | Rejected e => (Rejected e, store)
    | Resolved callbackParams => completeLogin w store callbackParams
    end.
Proof.
  intros [[client Hclient] (port & Hport & Herr & Hurl)].
  rewrite (authenticate_with_client _ _ _ _ _ Hclient). unfold login.
  now rewrite Hport, Herr, Hurl.
Qed.

(** A login that fails, or never finishes, leaves the store as it was:
    [saveAuth] is the last step. *)
Lemma completeLogin_failure_keeps_store (w : World) (store store' : QuiboConfig)
    (p : OAuthCallbackParams) (out : settled unit) :
  completeLogin w store p = (out, store') -> out <> Resolved tt -> store' = store.
Proof.
  unfold completeLogin.
  destruct (present (error p)); [now intros [= <- <-]|].
  destruct (present (access_token p)) as [a|]; [|now intros [= <- <-]].
  destruct (present (refresh_token p)) as [r|]; [|now intros [= <- <-]].
  destruct (session_error (setSession w a r)); [now intros [= <- <-]|].
  destruct (session_user (setSession w a r)); [|now intros [= <- <-]].
  intros [= <- <-] H. now elim H.
Qed.

Lemma login_failure_keeps_store (fuel : nat) (w : World)
    (store store' : QuiboConfig) (out : settled unit) :
  login fuel w store = (out, store') -> out <> Resolved tt -> store' = store.
Proof.
  unfold login.
  destruct (findAvailablePort fuel (listen w) defaultStartPort) as [|port|e];
    [now intros [= <- <-] | | now intros [= <- <-]].
  destruct (is_Some_bool _ || negb _); [now intros [= <- <-]|].
  destruct (startCallbackServer (events w)) as [|p|e];
    [now intros [= <- <-] | | now intros [= <- <-]].
  apply completeLogin_failure_keeps_store.
Qed.

Lemma authenticate_failure_keeps_store (fuel : nat) (w : World)
    (supabaseClient : option SupabaseClient)
    (store store' : QuiboConfig) (out : settled unit) :
  authenticate fuel w supabaseClient store = (out, store') ->
  out <> Resolved tt -> store' = store.
Proof.
  unfold authenticate.
  destruct (fst (getSupabaseClient w supabaseClient store));
    [apply login_failure_keeps_store | now intros [= <- <-]].
Qed.

(** What a successful login went through and what it handed to the
    store. *)
Lemma completeLogin_success (w : World) (store store' : QuiboConfig)
    (p : OAuthCallbackParams) :
  completeLogin w store p = (Resolved tt, store') ->
  exists a,
    store' = Config.setAuth a store
    /\ present (access_token p) = Some (accessToken a)
    /\ present (refresh_token p) = Some (refreshToken a)
    /\ expiresAt a = add (Num (floor_div_1000 (Date_now w)))
                         (parseInt (or_else (expires_in p) "3600")).
Proof.
  unfold completeLogin.
  destruct (present (error p)); [discriminate|].
  destruct (present (access_token p)) as [a|]; [|discriminate].
  destruct (present (refresh_token p)) as [r|]; [|discriminate].
  destruct (session_error (setSession w a r)); [discriminate|].
  destruct (session_user (setSession w a r)); [|discriminate].
  intros [= <-]. eexists. split; [reflexivity|]. now cbn.
Qed.

Lemma authenticate_success (fuel : nat) (w : World)
    (supabaseClient : option SupabaseClient) (store store' : QuiboConfig) :
  authenticate fuel w supabaseClient store = (Resolved tt, store') ->
  exists p,
    startCallbackServer (events w) = Resolved p
    /\ completeLogin w store p = (Resolved tt, store').
Proof.
  unfold authenticate.
  destruct (fst (getSupabaseClient w supabaseClient store)); [|discriminate].
  unfold login.
  destruct (findAvailablePort fuel (listen w) defaultStartPort) as [|port|e];
    [discriminate | | discriminate].
  destruct (is_Some_bool _ || negb _); [discriminate|].
  destruct (startCallbackServer (events w)) as [|p|e];
    [discriminate | | discriminate].
  intros H. now exists p.
Qed.

(** The expiry that a successful login leaves in the store. *)
Lemma authenticate_stored_expiry (fuel : nat) (w : World)
    (supabaseClient : option SupabaseClient) (store store' : QuiboConfig) :
  authenticate fuel w supabaseClient store = (Resolved tt, store') ->
  exists p a,
    startCallbackServer (events w) = Resolved p
    /\ Config.getAuth store' = Some a
    /\ expiresAt a = json_number (add (Num (floor_div_1000 (Date_now w)))
                                      (parseInt (or_else (expires_in p) "3600"))).
Proof.
  intros H. apply authenticate_success in H as (p & Hp & H).
  apply completeLogin_success in H as (a & -> & _ & _ & Hexp).
  exists p, (Config.persisted a). split; [exact Hp|]. split; [reflexivity|].
  cbn [Config.persisted expiresAt]. now rewrite Hexp.
Qed.

Lemma provider_error_not_missing_tokens (description : string) :
  OAuthProviderError description <> MissingTokensInCallback.
Proof.
  unfold OAuthProviderError, MissingTokensInCallback.
  rewrite app_cons. discriminate.
Qed.

Lemma exchange_failure_not_missing_tokens (r : SessionResponse) :
  SessionExchangeFailed r <> MissingTokensInCallback.
Proof.
  unfold SessionExchangeFailed, MissingTokensInCallback.
  rewrite app_cons. discriminate.
Qed.

(** Seconds of a time value, and what may be added to them exactly. *)
Lemma timeValue_seconds (ms k : Z) :
  timeValue ms -> 0 <= k <= 1000000000 ->
  Z.abs (floor_div_1000 ms + k) <= 2 ^ 53.
Proof.
  unfold timeValue, floor_div_1000. intros Hms Hk.
  change (2 ^ 53) with 9007199254740992.
  assert (H := Z.div_mod ms 1000 ltac:(lia)).
  assert (H' := Z.mod_pos_bound ms 1000 ltac:(lia)).
  lia.
Qed.

End LoginFacts.

(** C8.  When the flow is waiting for the callback and the timer fires
    before any request for the callback path has arrived, the callback
    server's promise is rejected with the timeout error whatever arrives
    later (a late callback request included), [authenticate()] is rejected
    with that error, and the store is left exactly as it was. *)
Theorem timeout_rejects_and_persists_nothing
    (fuel : nat) (w : Auth.World) (supabaseClient : option Auth.SupabaseClient)
    (store : QuiboConfig) (pre post : list Auth.Event) :
  Auth.awaitsCallback fuel w supabaseClient store ->
  Auth.events w = (pre ++ Auth.TimerFired :: post)%list ->
  Forall Auth.elsewhere pre ->
  Auth.startCallbackServer (Auth.events w) = Rejected Auth.CallbackTimeout
  /\ Auth.authenticate fuel w supabaseClient store
     = (Rejected Auth.CallbackTimeout, store)
  /\ (forall late, Auth.startCallbackServer (Auth.events w ++ late)
                   = Rejected Auth.CallbackTimeout).
Proof.
  intros Hwait Hevs Hpre.
  assert (Hrej : Auth.startCallbackServer (Auth.events w) = Rejected Auth.CallbackTimeout)
    by (rewrite Hevs; now apply run_timeout).
  split; [exact Hrej|]. split.
  - rewrite authenticate_awaits by assumption. now rewrite Hrej.
  - intros late. unfold Auth.startCallbackServer. rewrite run_app.
    rewrite fold_settled; [exact Hrej|].
    unfold Auth.startCallbackServer in Hrej. now rewrite Hrej.
Qed.

Lemma timeout_rejects_and_persists_nothing_witness :
  Auth.authenticate 1
    (loginWorld [Auth.Request "/favicon.ico" (callback None); Auth.TimerFired;
                 Auth.Request "/callback" (callback (Some "10"))] 1700000000123)
    None (storeWith None)
  = (Rejected Auth.CallbackTimeout, storeWith None).
Proof.
  refine (proj1 (proj2 (timeout_rejects_and_persists_nothing 1
    (loginWorld [Auth.Request "/favicon.ico" (callback None); Auth.TimerFired;
                 Auth.Request "/callback" (callback (Some "10"))] 1700000000123)
    None (storeWith None)
    [Auth.Request "/favicon.ico" (callback None)]
    [Auth.Request "/callback" (callback (Some "10"))] _ _ _))).
  - split; [eexists; reflexivity|].
    exists 54321. split; [reflexivity | split; reflexivity].
  - reflexivity.
  - constructor; [discriminate | constructor].
Defined.

(** C3.  For a callback delivered to [authenticate()]: when its [error]
    is set (a non-empty string), the flow is rejected with the provider
    error carrying [error_description], or [error] itself when there is no
    description, whatever the token fields hold; when [error] is not set
    and [access_token] or [refresh_token] is missing, the flow is rejected
    with the missing-tokens error; and the missing-tokens error arises in
    no other way. *)
Theorem provider_error_checked_before_tokens
    (fuel : nat) (w : Auth.World) (supabaseClient : option Auth.SupabaseClient)
    (store : QuiboConfig) (p : OAuthCallbackParams) :
  Auth.awaitsCallback fuel w supabaseClient store ->
  Auth.startCallbackServer (Auth.events w) = Resolved p ->
  (forall err, error p = Some err -> err <> "" ->
     Auth.authenticate fuel w supabaseClient store
       = (Rejected (Auth.OAuthProviderError (or_else (error_description p) err)), store))
  /\ (truthy (error p) = false ->
      truthy (access_token p) = false \/ truthy (refresh_token p) = false ->
      Auth.authenticate fuel w supabaseClient store
      = (Rejected Auth.MissingTokensInCallback, store))
  /\ (forall store',
      Auth.authenticate fuel w supabaseClient store
      = (Rejected Auth.MissingTokensInCallback, store') ->
      truthy (error p) = false
      /\ (truthy (access_token p) = false \/ truthy (refresh_token p) = false)).
Proof.
  intros Hwait Hp. rewrite authenticate_awaits by assumption. rewrite Hp.
  unfold Auth.completeLogin, present. split; [|split].
  - intros err He Hne. rewrite He. cbn [truthy].
    apply String.eqb_neq in Hne. now rewrite Hne.
  - intros He Htok. rewrite He.
    destruct Htok as [-> | ->]; [reflexivity|].
    now destruct (truthy (access_token p)), (access_token p).
  - intros store'. destruct (truthy (error p)) eqn:He.
    + destruct (error p) as [err|]; [|discriminate He].
      intros H. exfalso.
      apply (provider_error_not_missing_tokens (Auth.describe p err)). congruence.
    + intros H. split; [reflexivity|].
      destruct (truthy (access_token p)) eqn:Ha; [|now left].
      destruct (truthy (refresh_token p)) eqn:Hr; [|now right].
      destruct (access_token p) as [a|]; [|discriminate Ha].
      destruct (refresh_token p) as [r|]; [|discriminate Hr].
      exfalso. apply (exchange_failure_not_missing_tokens (Auth.setSession w a r)).
      destruct (Auth.session_error _); [congruence|].
      destruct (Auth.session_user _); congruence.
Qed.

Lemma provider_error_checked_before_tokens_witness :
  Auth.authenticate 1
    (loginWorld [Auth.Request "/callback" deniedCallback] 1700000000123)
    None (storeWith None)
  = (Rejected (Auth.OAuthProviderError "access_denied"), storeWith None).
Proof.
  refine (proj1 (provider_error_checked_before_tokens 1
    (loginWorld [Auth.Request "/callback" deniedCallback] 1700000000123)
    None (storeWith None) deniedCallback _ _) "access_denied" _ _).
  - split; [eexists; reflexivity|].
    exists 54321. split; [reflexivity | split; reflexivity].
  - reflexivity.
  - reflexivity.
  - discriminate.
Defined.




(** C5, as the code has it.  After a successful login whose
    [parseInt(expires_in || '3600')] is a number, with the sum of the time
    and that number within 2^53, the stored [expiresAt] is strictly greater
    than the Unix time at which the session was stored exactly when the
    number is positive; so it is whenever the callback carried no
    [expires_in].  When [expires_in] does not parse to a number the stored
    expiry is [null], which is not greater than a time at or after the
    epoch. *)
Theorem login_expiry_in_future_iff_positive
    (fuel : nat) (w : Auth.World) (supabaseClient : option Auth.SupabaseClient)
    (store store' : QuiboConfig) :
  Auth.authenticate fuel w supabaseClient store = (Resolved tt, store') ->
  exists p a,
    Auth.startCallbackServer (Auth.events w) = Resolved p
    /\ Config.getAuth store' = Some a
    /\ (forall n, parseInt (or_else (expires_in p) "3600") = Num n ->
        Z.abs (floor_div_1000 (Auth.Date_now w) + n) <= 2 ^ 53 ->
        (gt (expiresAt a) (Num (floor_div_1000 (Auth.Date_now w))) = true <-> 0 < n))
    /\ ((forall n, parseInt (or_else (expires_in p) "3600") <> Num n) ->
        0 <= floor_div_1000 (Auth.Date_now w) ->
        expiresAt a = Null
        /\ gt (expiresAt a) (Num (floor_div_1000 (Auth.Date_now w))) = false)
    /\ (truthy (expires_in p) = false -> timeValue (Auth.Date_now w) ->
        gt (expiresAt a) (Num (floor_div_1000 (Auth.Date_now w))) = true).
Proof.
  intros H. destruct (authenticate_stored_expiry _ _ _ _ _ H) as (p & a & Hp & Ha & Hexp).
  exists p, a. split; [exact Hp|]. split; [exact Ha|].
  assert (Hnum : forall n, parseInt (or_else (expires_in p) "3600") = Num n ->
             Z.abs (floor_div_1000 (Auth.Date_now w) + n) <= 2 ^ 53 ->
             (gt (expiresAt a) (Num (floor_div_1000 (Auth.Date_now w))) = true
              <-> 0 < n)).
  { intros n Hn Hsafe. rewrite Hexp, Hn, add_safe by exact Hsafe.
    cbn [json_number]. rewrite gt_Num. lia. }
  split; [exact Hnum|]. split.
  - intros Hno Hepoch. rewrite Hexp.
    destruct (parseInt (or_else (expires_in p) "3600")) as [n| |s|] eqn:E.
    + now elim (Hno n).
    + cbn. split; [reflexivity|]. apply negb_false_iff, Z.leb_le. exact Hepoch.
    + cbn. split; [reflexivity|]. apply negb_false_iff, Z.leb_le. exact Hepoch.
    + now apply parseInt_not_Null in E.
  - intros Hnone Htime. apply (Hnum 3600); [|apply timeValue_seconds; [exact Htime|lia]|lia].
    now rewrite (or_else_falsy _ _ Hnone).
Qed.

Lemma login_expiry_in_future_iff_positive_witness :
  exists p a,
    Auth.startCallbackServer [Auth.Request "/callback" (callback (Some "10"))] = Resolved p
    /\ Some (loggedIn 1700000010) = Some a
    /\ (forall n, parseInt (or_else (expires_in p) "3600") = Num n ->
        Z.abs (1700000000 + n) <= 2 ^ 53 ->
        (gt (expiresAt a) (Num 1700000000) = true <-> 0 < n)).
Proof.
  destruct (login_expiry_in_future_iff_positive 1
    (loginWorld [Auth.Request "/callback" (callback (Some "10"))] 1700000000123)
    None (storeWith None) (storeWith (Some (loggedIn 1700000010))) eq_refl)
    as (p & a & H1 & H2 & H3 & _).
  exists p, a. split; [exact H1|]. split; [exact H2 | exact H3].
Defined.

(** C5, as the specification has it, fails: a callback carrying
    [expires_in=0] logs in, and the session stored at Unix time 1700000000
    expires at 1700000000, which is not later. *)
Lemma expires_in_zero_expiry_not_in_future :
  Auth.authenticate 1
    (loginWorld [Auth.Request "/callback" (callback (Some "0"))] 1700000000123)
    None (storeWith None)
  = (Resolved tt, storeWith (Some (loggedIn 1700000000)))
  /\ floor_div_1000 1700000000123 = 1700000000
  /\ gt (expiresAt (loggedIn 1700000000)) (Num (floor_div_1000 1700000000123)) = false.
Proof. repeat split. Qed.

(* ===================================================================== *)
(** ** The API client *)
(* ===================================================================== *)

Example resourceName_project : Api.resourceName "/projects/p1" = "Project".
Proof. reflexivity. Qed.
Example resourceName_outline : Api.resourceName "/outline/x" = "Outline".
Proof. reflexivity. Qed.
Example resourceName_section : Api.resourceName "/section/3" = "Section".
Proof. reflexivity. Qed.
Example resourceName_unmatched : Api.resourceName "/project_status/p1" = "Resource".
Proof. reflexivity. Qed.

Lemma resourceName_rules (endpoint : string) :
  (includes endpoint "/projects/" = true -> Api.resourceName endpoint = "Project")
  /\ (includes endpoint "/projects/" = false ->
      includes endpoint "/outline/" = true -> Api.resourceName endpoint = "Outline")
  /\ (includes endpoint "/projects/" = false ->
      includes endpoint "/outline/" = false ->
      includes endpoint "/section/" = true -> Api.resourceName endpoint = "Section")
  /\ (includes endpoint "/projects/" = false ->
      includes endpoint "/outline/" = false ->
      includes endpoint "/section/" = false -> Api.resourceName endpoint = "Resource").
Proof.
  unfold Api.resourceName. repeat split.
  - now intros ->.
  - now intros -> ->.
  - now intros -> -> ->.
  - now intros -> -> ->.
Qed.

(** An endpoint with a single slash matches none of the rules. *)
Lemma resourceName_one_slash (endpoint : string) :
  count_char "/" endpoint = 1%nat -> Api.resourceName endpoint = "Resource".
Proof.
  intros H.
  assert (no : forall pat, count_char "/" pat = 2%nat -> includes endpoint pat = false).
  { intros pat Hpat. destruct (includes endpoint pat) eqn:E; [|reflexivity].
    apply (includes_count "/") in E. lia. }
  apply resourceName_rules; apply no; reflexivity.
Qed.

Lemma listProjects_endpoint_one_slash (status : option string) :
  count_char "/" (Api.listProjects_endpoint status) = 1%nat.
Proof.
  unfold Api.listProjects_endpoint. destruct (present status) as [st|]; [|reflexivity].
  rewrite !app_cons, !app_empty_l. cbn [truthy String.eqb negb].
  cbn [count_char Ascii.eqb Bool.eqb].
  now rewrite form_urlencode_no_slash.
Qed.

Lemma regenerateOutline_endpoint_project (projectName : string) :
  Api.resourceName (Api.regenerateOutline_endpoint projectName) = "Project".
Proof.
  apply resourceName_rules. unfold Api.regenerateOutline_endpoint.
  apply (includes_intro "/api/v2" "/projects/"
           (encodeURIComponent projectName ++ "/outline/regenerate")).
Qed.

Section HeadersFacts.

Import Api.

Lemma property_present (name value : string) (obj : HeadersObject) :
  property name obj = Some value -> List.In name (map fst obj).
Proof.
  induction obj as [|[key old] obj IH]; [discriminate|].
  cbn [property map fst]. destruct (String.eqb key name) eqn:E.
  - apply String.eqb_eq in E. now left.
  - intros H. right. now apply IH.
Qed.

Lemma property_absent (name : string) (obj : HeadersObject) :
  ~ List.In name (map fst obj) -> property name obj = None.
Proof.
  intros H. destruct (property name obj) eqn:E; [|reflexivity].
  apply property_present in E. now elim H.
Qed.

Lemma property_app (name : string) (a b : HeadersObject) :
  property name (a ++ b)%list
  = match property name a with
    | Some value => Some value
    | None => property name b
    end.
Proof.
  induction a as [|[key old] a IH]; [reflexivity|].
  cbn [app property]. now destruct (String.eqb key name).
Qed.

(** Assigning a property that is not there puts it at the end. *)
Lemma assign_absent (name value : string) (obj : HeadersObject) :
  property name obj = None -> assign name value obj = (obj ++ [(name, value)])%list.
Proof.
  induction obj as [|[key old] obj IH]; [reflexivity|].
  cbn [property assign app]. destruct (String.eqb key name); [discriminate|].
  intros H. now rewrite IH.
Qed.

Lemma spread_snoc (target source : HeadersObject) (name value : string) :
  spread target (source ++ [(name, value)])%list = assign name value (spread target source).
Proof. unfold spread. now rewrite fold_left_app. Qed.

Lemma property_filter_other (name other : string) (obj : HeadersObject) :
  String.eqb name other = false ->
  property name (List.filter (fun entry => negb (String.eqb (fst entry) other)) obj)
  = property name obj.
Proof.
  intros Hne. induction obj as [|[key old] obj IH]; [reflexivity|].
  cbn [property List.filter fst]. destruct (String.eqb key other) eqn:E; cbn [negb].
  - apply String.eqb_eq in E. subst key. rewrite String.eqb_sym, Hne. exact IH.
  - cbn [property]. now rewrite IH.
Qed.

(** Spreading an object over a single property: the property stays first,
    with the object's value for it when the object has one, and the
    object's other properties follow in their order. *)
Lemma spread_onto_one (name value : string) (obj : HeadersObject) :
  List.NoDup (map fst obj) ->
  spread [(name, value)] obj
  = (name, default value (property name obj))
    :: List.filter (fun entry => negb (String.eqb (fst entry) name)) obj.
Proof.
  induction obj as [|[key new] obj IH] using rev_ind; [reflexivity|].
  rewrite map_app. cbn [map fst]. intros Hdup.
  apply List.NoDup_remove in Hdup as [Hdup Hkey]. rewrite app_nil_r in Hdup, Hkey.
  rewrite spread_snoc, (IH Hdup), property_app, List.filter_app.
  cbn [property List.filter fst assign].
  rewrite (String.eqb_sym name key).
  destruct (String.eqb key name) eqn:E.
  - apply String.eqb_eq in E. subst key.
    rewrite (property_absent _ _ Hkey). cbn [negb default]. now rewrite app_nil_r.
  - cbn [negb]. f_equal.
    + f_equal. now destruct (property name obj).
    + apply assign_absent. rewrite property_filter_other by exact E.
      now apply property_absent.
Qed.

Lemma keys_filter (name other : string) (obj : HeadersObject) :
  List.In name
    (map fst (List.filter (fun entry => negb (String.eqb (fst entry) other)) obj)) ->
  List.In name (map fst obj) /\ name <> other.
Proof.
  induction obj as [|[key old] obj IH]; [intros []|].
  cbn [List.filter fst]. destruct (String.eqb key other) eqn:E; cbn [negb].
  - intros H. destruct (IH H) as [Hin Hne]. split; [now right | exact Hne].
  - cbn [map fst]. intros [<- | H].
    + split; [now left | now apply String.eqb_neq].
    + destruct (IH H) as [Hin Hne]. split; [now right | exact Hne].
Qed.

(** Nothing is filed under a name that no property spells. *)
Lemma fieldValues_none (name : string) (obj : HeadersObject) :
  (forall key, List.In key (map fst obj) -> lowerName key <> lowerName name) ->
  fieldValues name obj = [].
Proof.
  induction obj as [|[key old] obj IH]; [reflexivity|].
  intros H. unfold fieldValues. cbn [List.filter fst].
  assert (Hkey : String.eqb (lowerName key) (lowerName name) = false)
    by (apply String.eqb_neq, H; now left).
  rewrite Hkey. apply IH. intros k Hk. apply H. now right.
Qed.

End HeadersFacts.

Section ClientFacts.

Variable Json : Type.
Variable JSON_parse : string -> option Json.
Variable member : Json -> string -> completion (option string).

Local Abbreviation makeRequest := (Api.makeRequest Json JSON_parse member).
Local Abbreviation listProjects := (Api.listProjects Json JSON_parse member).
Local Abbreviation regenerateOutline := (Api.regenerateOutline Json JSON_parse member).

(** With a token at hand, a 404 response is the [notFound] error. *)
Lemma makeRequest_404 (store : QuiboConfig) (ms : Z)
    (fetch : string -> Api.RequestInit -> Api.FetchOutcome)
    (endpoint : string) (options : Api.RequestInit) (token : string) (r : Api.Response) :
  Auth.getAccessToken store ms = Return token ->
  fetch (Config.getBackendUrl store ++ endpoint) (Api.requestInit token options)
    = Api.Responds r ->
  Api.status r = 404 ->
  makeRequest store ms fetch endpoint options
    = Throw (Api.notFound endpoint (Api.text r)).
Proof.
  intros Htok Hfetch Hstatus. unfold Api.makeRequest.
  rewrite Htok, Hfetch. unfold Api.classify. rewrite Hstatus. reflexivity.
Qed.

(** C7.  A 404 response makes [makeRequest] throw an [ApiError] with
    status 404 whose message starts with the resource kind, chosen by the
    first rule that matches the endpoint: contains ["/projects/"], Project;
    else contains ["/outline/"], Outline; else contains ["/section/"],
    Section; else Resource.  The message ends with the response body when
    the body is not empty, and so includes it. *)
Theorem not_found_kind_by_ordered_rules (store : QuiboConfig) (ms : Z)
    (fetch : string -> Api.RequestInit -> Api.FetchOutcome)
    (endpoint : string) (options : Api.RequestInit) (token : string) (r : Api.Response) :
  Auth.getAccessToken store ms = Return token ->
  fetch (Config.getBackendUrl store ++ endpoint) (Api.requestInit token options)
    = Api.Responds r ->
  Api.status r = 404 ->
  exists kind message,
    makeRequest store ms fetch endpoint options
      = Throw (ApiError message 404 (Some (Api.text r)))
    /\ (includes endpoint "/projects/" = true -> kind = "Project")
    /\ (includes endpoint "/projects/" = false ->
        includes endpoint "/outline/" = true -> kind = "Outline")
    /\ (includes endpoint "/projects/" = false ->
        includes endpoint "/outline/" = false ->
        includes endpoint "/section/" = true -> kind = "Section")
    /\ (includes endpoint "/projects/" = false ->
        includes endpoint "/outline/" = false ->
        includes endpoint "/section/" = false -> kind = "Resource")
    /\ (Api.text r <> "" ->
        message = kind ++ " not found. " ++ Api.text r
        /\ includes message (Api.text r) = true)
    /\ (Api.text r = "" ->
        message = kind ++ " not found. The requested resource does not exist.").
Proof.
  intros Htok Hfetch Hstatus.
  exists (Api.resourceName endpoint),
         (Api.resourceName endpoint ++ " not found. "
          ++ or_else (Some (Api.text r)) "The requested resource does not exist.").
  split; [now apply (makeRequest_404 store ms fetch endpoint options token r)|].
  destruct (resourceName_rules endpoint) as (R1 & R2 & R3 & R4).
  repeat (split; [assumption|]).
  cbn [or_else]. split.
  - intros Hne. apply String.eqb_neq in Hne. rewrite Hne.
    split; [reflexivity|].
    rewrite <- app_assoc_string. apply includes_suffix.
  - now intros ->.
Qed.

(** C9, as the code has it.  [makeRequest] calls [fetch] with the
    caller's options, the headers replaced by the caller's headers spread
    over the bearer property.  A caller's property named exactly
    [Authorization] takes the place of the bearer token from
    [getAccessToken()], and without one the bearer token stays; every
    other property is the caller's.  On the wire, where header names do
    not tell upper case from lower case, the first value under
    Authorization is therefore the caller's own or else the bearer token,
    and the values of the caller's properties that spell the name in
    another letter case follow it: such a property replaces nothing, and
    the bearer token goes out with its value behind it.  With no caller
    header of that name in any letter case the bearer token alone is
    sent. *)
Theorem caller_authorization_replaces_bearer (store : QuiboConfig) (ms : Z)
    (endpoint : string) (options : Api.RequestInit) (token : string) :
  let callers := default [] (Api.headers options) in
  let merged := Api.mergeHeaders token options in
  let others := List.filter (fun entry => negb (String.eqb (fst entry) "Authorization"))
                            callers in
  Auth.getAccessToken store ms = Return token ->
  List.NoDup (map fst callers) ->
  (forall observe : string -> Api.RequestInit -> string,
      makeRequest store ms (reporting observe) endpoint options
      = Return (Api.TextPayload Json
                  (observe (Config.getBackendUrl store ++ endpoint)
                           (Api.requestInit token options))))
  /\ Api.headers (Api.requestInit token options) = Some merged
  /\ Api.method (Api.requestInit token options) = Api.method options
  /\ Api.body (Api.requestInit token options) = Api.body options
  /\ (forall v, Api.property "Authorization" callers = Some v ->
        Api.property "Authorization" merged = Some v)
  /\ (Api.property "Authorization" callers = None ->
        Api.property "Authorization" merged = Some ("Bearer " ++ token))
  /\ (forall name, name <> "Authorization" ->
        Api.property name merged = Api.property name callers)
  /\ Api.fieldValues "Authorization" merged
     = default ("Bearer " ++ token) (Api.property "Authorization" callers)
       :: Api.fieldValues "Authorization" others
  /\ (forall v, Api.property "Authorization" callers = Some v ->
        (forall name, List.In name (map fst callers) ->
           Api.lowerName name = "authorization" -> name = "Authorization") ->
        Api.fieldValues "Authorization" merged = [v])
  /\ ((forall name, List.In name (map fst callers) ->
          Api.lowerName name <> "authorization") ->
        Api.fieldValues "Authorization" merged = ["Bearer " ++ token]).
Proof.
  intros callers merged others Htok Hdup.
  assert (Hmerged : merged = ("Authorization",
              default ("Bearer " ++ token) (Api.property "Authorization" callers))
              :: others)
    by (apply spread_onto_one; exact Hdup).
  assert (Hwire : Api.fieldValues "Authorization" merged
            = default ("Bearer " ++ token) (Api.property "Authorization" callers)
              :: Api.fieldValues "Authorization" others)
    by (now rewrite Hmerged).
  split.
  { intros observe. unfold Api.makeRequest. now rewrite Htok. }
  do 3 (split; [reflexivity|]).
  split; [|split; [|split; [|split; [exact Hwire|split]]]].
  - intros v Hv. now rewrite Hmerged, Hv.
  - intros Hnone. now rewrite Hmerged, Hnone.
  - intros name Hne. rewrite Hmerged. cbn [Api.property].
    apply String.eqb_neq in Hne. rewrite String.eqb_sym, Hne.
    unfold others. apply property_filter_other. exact Hne.
  - intros v Hv Honly. rewrite Hwire, Hv. cbn [default]. f_equal.
    apply fieldValues_none. intros key Hkey Hlow.
    apply keys_filter in Hkey as [Hin Hne].
    apply Hne, Honly; [exact Hin | exact Hlow].
  - intros Hcase.
    assert (Hnone : Api.property "Authorization" callers = None).
    { destruct (Api.property "Authorization" callers) as [v|] eqn:E; [|reflexivity].
      apply property_present in E. now elim (Hcase _ E). }
    rewrite Hwire, Hnone. cbn [default]. f_equal.
    apply fieldValues_none. intros key Hkey.
    apply keys_filter in Hkey as [Hin _]. now apply Hcase.
Qed.

(** C10.  A 404 from [listProjects], whose endpoint is ["/projects"] or
    ["/projects?status=..."], is reported as a Resource that was not
    found, whatever the status filter; a 404 from [regenerateOutline],
    whose endpoint is ["/api/v2/projects/{name}/outline/regenerate"], is
    reported as a Project that was not found, whatever the name. *)
Theorem list_and_regenerate_not_found_kinds (store : QuiboConfig) (ms : Z)
    (fetch : string -> Api.RequestInit -> Api.FetchOutcome)
    (token : string) (r : Api.Response) :
  Auth.getAccessToken store ms = Return token ->
  Api.status r = 404 ->
  (forall status : option string,
      fetch (Config.getBackendUrl store ++ Api.listProjects_endpoint status)
            (Api.requestInit token Api.noOptions) = Api.Responds r ->
      listProjects store ms fetch status
      = Throw (ApiError ("Resource not found. "
                         ++ or_else (Some (Api.text r))
                                    "The requested resource does not exist.")
                        404 (Some (Api.text r))))
  /\ (forall (projectName feedback : string) (focusArea : option string),
      fetch (Config.getBackendUrl store ++ Api.regenerateOutline_endpoint projectName)
            (Api.requestInit token
               (Api.jsonPost [("feedback", Some feedback); ("focus_area", focusArea)]))
        = Api.Responds r ->
      regenerateOutline store ms fetch projectName feedback focusArea
      = Throw (ApiError ("Project not found. "
                         ++ or_else (Some (Api.text r))
                                    "The requested resource does not exist.")
                        404 (Some (Api.text r))))
  /\ Api.listProjects_endpoint None = "/projects"
  /\ (forall st : string, st <> "" ->
      Api.listProjects_endpoint (Some st) = "/projects?status=" ++ form_urlencode st)
  /\ (forall projectName : string,
      Api.regenerateOutline_endpoint projectName
      = "/api/v2/projects/" ++ encodeURIComponent projectName ++ "/outline/regenerate").
Proof.
  intros Htok Hstatus. split; [|split; [|split; [reflexivity|split; [|reflexivity]]]].
  - intros status Hfetch. unfold Api.listProjects.
    rewrite (makeRequest_404 _ _ _ _ _ _ _ Htok Hfetch Hstatus).
    unfold Api.notFound.
    now rewrite (resourceName_one_slash _ (listProjects_endpoint_one_slash status)).
  - intros projectName feedback focusArea Hfetch. unfold Api.regenerateOutline.
    rewrite (makeRequest_404 _ _ _ _ _ _ _ Htok Hfetch Hstatus).
    unfold Api.notFound. now rewrite regenerateOutline_endpoint_project.
  - intros st Hne. unfold Api.listProjects_endpoint, present. cbn [truthy].
    apply String.eqb_neq in Hne. rewrite Hne. cbn [negb].
    rewrite !app_cons, app_empty_l. reflexivity.
Qed.

End ClientFacts.

Lemma not_found_kind_by_ordered_rules_witness :
  exists kind message,
    Api.makeRequest unit noJson noMember (storeWith (Some (session 2000))) 1000000
      (always404 "no such project") "/projects/p1" Api.noOptions
      = Throw (ApiError message 404 (Some "no such project"))
    /\ (includes "/projects/p1" "/projects/" = true -> kind = "Project")
    /\ (includes "/projects/p1" "/projects/" = false ->
        includes "/projects/p1" "/outline/" = true -> kind = "Outline")
    /\ (includes "/projects/p1" "/projects/" = false ->
        includes "/projects/p1" "/outline/" = false ->
        includes "/projects/p1" "/section/" = true -> kind = "Section")
    /\ (includes "/projects/p1" "/projects/" = false ->
        includes "/projects/p1" "/outline/" = false ->
        includes "/projects/p1" "/section/" = false -> kind = "Resource")
    /\ ("no such project" <> "" ->
        message = kind ++ " not found. " ++ "no such project"
        /\ includes message "no such project" = true)
    /\ ("no such project" = "" ->
        message = kind ++ " not found. The requested resource does not exist.").
Proof.
  exact (not_found_kind_by_ordered_rules unit noJson noMember
           (storeWith (Some (session 2000))) 1000000
           (always404 "no such project") "/projects/p1" Api.noOptions
           "header.payload.signature"
           {| Api.status := 404; Api.content_type := Some "application/json";
              Api.text := "no such project" |}
           eq_refl eq_refl eq_refl).
Defined.

Lemma caller_authorization_replaces_bearer_witness :
  Api.property "Authorization"
    (Api.mergeHeaders "header.payload.signature" withOwnAuthorization)
    = Some "Basic dXNlcjpwdw=="
  /\ Api.fieldValues "Authorization"
       (Api.mergeHeaders "header.payload.signature" withOwnAuthorization)
     = ["Basic dXNlcjpwdw=="]
  /\ Api.fieldValues "Authorization"
       (Api.mergeHeaders "header.payload.signature" Api.noOptions)
     = ["Bearer header.payload.signature"].
Proof.
  split; [|split].
  - refine (proj1 (proj2 (proj2 (proj2 (proj2 (caller_authorization_replaces_bearer
      unit noJson noMember (storeWith (Some (session 2000))) 1000000 "/projects"
      withOwnAuthorization "header.payload.signature" _ _))))) _ _).
    + reflexivity.
    + repeat constructor. intros [].
    + reflexivity.
  - refine (proj1 (proj2 (proj2 (proj2 (proj2 (proj2 (proj2 (proj2 (proj2
      (caller_authorization_replaces_bearer
      unit noJson noMember (storeWith (Some (session 2000))) 1000000 "/projects"
      withOwnAuthorization "header.payload.signature" _ _))))))))) _ _ _).
    + reflexivity.
    + repeat constructor. intros [].
    + reflexivity.
    + intros name [<- | []] _. reflexivity.
  - refine (proj2 (proj2 (proj2 (proj2 (proj2 (proj2 (proj2 (proj2 (proj2
      (caller_authorization_replaces_bearer
      unit noJson noMember (storeWith (Some (session 2000))) 1000000 "/projects"
      Api.noOptions "header.payload.signature" _ _))))))))) _).
    + reflexivity.
    + constructor.
    + intros name [].
Defined.

(** C9, as it is stated, fails: when the caller's headers spell the name
    [authorization] in lower case, the call has an Authorization header of
    its own and yet the bearer token is not replaced, and what is sent is
    not the bearer token alone either: the request that [fetch] is handed
    files two values under the name, the bearer token first, and a server
    reads them joined. *)
Lemma lower_case_authorization_is_sent_with_bearer :
  Api.makeRequest unit noJson noMember (storeWith (Some (session 2000))) 1000000
    (reporting authorizationSent) "/projects" withLowerCaseAuthorization
  = Return (Api.TextPayload unit
              "Bearer header.payload.signature, Basic dXNlcjpwdw==")
  /\ Api.fieldValues "Authorization"
       (Api.mergeHeaders "header.payload.signature" withLowerCaseAuthorization)
     = ["Bearer header.payload.signature"; "Basic dXNlcjpwdw=="]
  /\ Api.fieldValues "Authorization"
       (Api.mergeHeaders "header.payload.signature" withLowerCaseAuthorization)
     <> ["Basic dXNlcjpwdw=="]
  /\ Api.fieldValues "Authorization"
       (Api.mergeHeaders "header.payload.signature" withLowerCaseAuthorization)
     <> ["Bearer header.payload.signature"].
Proof. repeat split; discriminate. Qed.

Lemma list_and_regenerate_not_found_kinds_witness :
  Api.listProjects unit noJson noMember (storeWith (Some (session 2000))) 1000000
    (always404 "") (Some "a/projects/b")
    = Throw (ApiError "Resource not found. The requested resource does not exist."
                      404 (Some ""))
  /\ Api.regenerateOutline unit noJson noMember (storeWith (Some (session 2000))) 1000000
       (always404 "") "my blog" "shorter" None
    = Throw (ApiError "Project not found. The requested resource does not exist."
                      404 (Some "")).
Proof.
  split.
  - apply (proj1 (list_and_regenerate_not_found_kinds unit noJson noMember
             (storeWith (Some (session 2000))) 1000000 (always404 "")
             "header.payload.signature"
             {| Api.status := 404; Api.content_type := Some "application/json";
                Api.text := "" |}
             eq_refl eq_refl) (Some "a/projects/b") eq_refl).
  - apply (proj1 (proj2 (list_and_regenerate_not_found_kinds unit noJson noMember
             (storeWith (Some (session 2000))) 1000000 (always404 "")
             "header.payload.signature"
             {| Api.status := 404; Api.content_type := Some "application/json";
                Api.text := "" |}
             eq_refl eq_refl)) "my blog" "shorter" None eq_refl).
Defined.

(* ===================================================================== *)
(** ** Further properties: sessions and the login flow *)
(* ===================================================================== *)

(** X1.  After [clearAuth()] the status is "not authenticated, expired"
    with no email and no expiry, [getAccessToken()] throws the
    not-authenticated error, whatever the clock and whatever was stored
    before; clearing twice is clearing once, and the backend URL is kept. *)
Theorem clearAuth_logs_out (store : QuiboConfig) (ms : Z) :
  Auth.checkAuth (Auth.clearAuth store) ms
    = {| authenticated := false; Status_email := None;
         Status_expiresAt := None; isExpired := true |}
  /\ Auth.getAccessToken (Auth.clearAuth store) ms = Throw Auth.NotAuthenticated
  /\ Auth.clearAuth (Auth.clearAuth store) = Auth.clearAuth store
  /\ Config.getBackendUrl (Auth.clearAuth store) = Config.getBackendUrl store.
Proof. repeat split. Qed.

(** X2.  [checkAuth()] and [getAccessToken()] agree on every store and
    clock reading: the status is authenticated exactly when the accessor
    returns a token, the token returned is the stored one, and with a
    session stored the status repeats its email and expiry and has
    [isExpired] the negation of [authenticated]. *)
Theorem status_agrees_with_token_access (store : QuiboConfig) (ms : Z) :
  (authenticated (Auth.checkAuth store ms) = true
   <-> exists token, Auth.getAccessToken store ms = Return token)
  /\ (forall token, Auth.getAccessToken store ms = Return token ->
        exists a, Config.getAuth store = Some a /\ token = accessToken a)
  /\ (forall a, Config.getAuth store = Some a ->
        Status_email (Auth.checkAuth store ms) = Some (email (user a))
        /\ Status_expiresAt (Auth.checkAuth store ms) = Some (expiresAt a)
        /\ isExpired (Auth.checkAuth store ms)
           = negb (authenticated (Auth.checkAuth store ms))).
Proof.
  unfold Auth.checkAuth, Auth.getAccessToken.
  destruct (Config.getAuth store) as [a|].
  - destruct (ge (Num (floor_div_1000 ms)) (expiresAt a)); cbn.
    + split; [split; [discriminate | now intros [t ?]]|].
      split; [discriminate|]. now intros ? [= <-].
    + split; [split; [now exists (accessToken a) | reflexivity]|].
      split; [intros t [= <-]; now exists a|]. now intros ? [= <-].
  - cbn. split; [split; [discriminate | now intros [t ?]]|].
    split; discriminate.
Qed.

Lemma status_agrees_with_token_access_witness :
  isExpired (Auth.checkAuth (storeWith (Some (session 2000))) 1000000) = false.
Proof.
  destruct (proj2 (proj2 (status_agrees_with_token_access
              (storeWith (Some (session 2000))) 1000000)) (session 2000) eq_refl)
    as (_ & _ & H).
  rewrite H. reflexivity.
Defined.

Section LoginOutcomes.

Import Auth.

(** What [completeLogin] does to one store it does to every store. *)
Lemma completeLogin_uniform (w : World) (p : OAuthCallbackParams)
    (store : QuiboConfig) :
  (exists a, forall s, completeLogin w s p = (Resolved tt, Config.setAuth a s))
  \/ (exists out, out <> Resolved tt /\ forall s, completeLogin w s p = (out, s)).
Proof.
  unfold completeLogin.
  destruct (present (error p)); [right; eexists; split; [|reflexivity]; discriminate|].
  destruct (present (access_token p)) as [a|];
    [|right; eexists; split; [|reflexivity]; discriminate].
  destruct (present (refresh_token p)) as [r|];
    [|right; eexists; split; [|reflexivity]; discriminate].
  destruct (session_error (setSession w a r));
    [right; eexists; split; [|reflexivity]; discriminate|].
  destruct (session_user (setSession w a r));
    [|right; eexists; split; [|reflexivity]; discriminate].
  left. eexists. reflexivity.
Qed.

Lemma login_uniform (fuel : nat) (w : World) (store : QuiboConfig) :
  (exists a, forall s, login fuel w s = (Resolved tt, Config.setAuth a s))
  \/ (exists out, out <> Resolved tt /\ forall s, login fuel w s = (out, s)).
Proof.
  unfold login.
  destruct (findAvailablePort fuel (listen w) defaultStartPort) as [|port|e];
    [right; eexists; split; [|reflexivity]; discriminate | |
     right; eexists; split; [|reflexivity]; discriminate].
  destruct (is_Some_bool _ || negb _);
    [right; eexists; split; [|reflexivity]; discriminate|].
  destruct (startCallbackServer (events w)) as [|p|e];
    [right; eexists; split; [|reflexivity]; discriminate | |
     right; eexists; split; [|reflexivity]; discriminate].
  apply (completeLogin_uniform w p store).
Qed.

(** The client depends on the store through the two settings only. *)
Lemma getSupabaseClient_settings (w : World) (supabaseClient : option SupabaseClient)
    (store1 store2 : QuiboConfig) :
  supabaseUrl store1 = supabaseUrl store2 ->
  supabaseAnonKey store1 = supabaseAnonKey store2 ->
  getSupabaseClient w supabaseClient store1 = getSupabaseClient w supabaseClient store2.
Proof.
  intros Hu Hk.
  unfold getSupabaseClient, Config.getSupabaseUrl, Config.getSupabaseAnonKey.
  now rewrite Hu, Hk.
Qed.

End LoginOutcomes.

(** X3.  A login attempt changes nothing but the session record: the
    backend URL and the provider settings are kept in every case, and
    unless the attempt succeeds the whole store, the previous session
    included, is exactly what it was. *)
Theorem authenticate_touches_only_session
    (fuel : nat) (w : Auth.World) (supabaseClient : option Auth.SupabaseClient)
    (store store' : QuiboConfig) (out : settled unit) :
  Auth.authenticate fuel w supabaseClient store = (out, store') ->
  backendUrl store' = backendUrl store
  /\ supabaseUrl store' = supabaseUrl store
  /\ supabaseAnonKey store' = supabaseAnonKey store
  /\ (out <> Resolved tt -> store' = store)
  /\ (out = Resolved tt -> exists a, Config.getAuth store' = Some a).
Proof.
  intros H.
  assert (Hcase : (exists a, out = Resolved tt /\ store' = Config.setAuth a store)
                  \/ (out <> Resolved tt /\ store' = store)).
  { destruct out as [|[]|e].
    - right. split; [discriminate|].
      now apply (authenticate_failure_keeps_store _ _ _ _ _ _ H).
    - left. apply authenticate_success in H as (p & _ & H).
      apply completeLogin_success in H as (stored & -> & _). now exists stored.
    - right. split; [discriminate|].
      now apply (authenticate_failure_keeps_store _ _ _ _ _ _ H). }
  destruct Hcase as [(a & -> & ->) | (Hne & ->)].
  - do 3 (split; [reflexivity|]).
    split; [now intros ne | now eexists].
  - do 3 (split; [reflexivity|]).
    split; [reflexivity | intros ->; now elim Hne].
Qed.

Lemma authenticate_touches_only_session_witness :
  storeWith (Some (session 2000)) = storeWith (Some (session 2000)).
Proof.
  refine (proj1 (proj2 (proj2 (proj2 (authenticate_touches_only_session 1
    (loginWorld [Auth.Request "/callback" deniedCallback] 1700000000123) None
    (storeWith (Some (session 2000))) (storeWith (Some (session 2000)))
    (Rejected (Auth.OAuthProviderError "access_denied")) _)))) _).
  - reflexivity.
  - discriminate.
Defined.

(** X4.  Of the store, the login flow reads the two Supabase settings
    and nothing else, the stored session least of all: run in the same
    world against two stores that agree on [supabaseUrl] and
    [supabaseAnonKey] it ends the same way and leaves the same client
    behind, and when it succeeds it stores the same session in both,
    replacing whatever was there. *)
Theorem relogin_overwrites
    (fuel : nat) (w : Auth.World) (supabaseClient : option Auth.SupabaseClient)
    (store1 store2 : QuiboConfig) :
  supabaseUrl store1 = supabaseUrl store2 ->
  supabaseAnonKey store1 = supabaseAnonKey store2 ->
  fst (Auth.authenticate fuel w supabaseClient store1)
  = fst (Auth.authenticate fuel w supabaseClient store2)
  /\ Auth.clientAfter w supabaseClient store1 = Auth.clientAfter w supabaseClient store2
  /\ (fst (Auth.authenticate fuel w supabaseClient store1) = Resolved tt ->
      Config.getAuth (snd (Auth.authenticate fuel w supabaseClient store1))
      = Config.getAuth (snd (Auth.authenticate fuel w supabaseClient store2))
      /\ exists a, snd (Auth.authenticate fuel w supabaseClient store1)
                   = Config.setAuth a store1).
Proof.
  intros Hu Hk. unfold Auth.authenticate, Auth.clientAfter.
  rewrite (getSupabaseClient_settings w supabaseClient store1 store2 Hu Hk).
  split; [|split; [reflexivity|]].
  - destruct (fst (Auth.getSupabaseClient w supabaseClient store2)) as [client|e];
      [|reflexivity].
    destruct (login_uniform fuel w store1) as [[a Ha] | (o & Ho & Hf)].
    + now rewrite !Ha.
    + now rewrite !Hf.
  - destruct (fst (Auth.getSupabaseClient w supabaseClient store2)) as [client|e];
      [|discriminate].
    destruct (login_uniform fuel w store1) as [[a Ha] | (o & Ho & Hf)].
    + rewrite !Ha. cbn. intros _. split; [reflexivity|]. now exists a.
    + rewrite !Hf. cbn. intros ->. now elim Ho.
Qed.

Lemma relogin_overwrites_witness :
  Config.getAuth (snd (Auth.authenticate 1
      (loginWorld [Auth.Request "/callback" (callback (Some "10"))] 1700000000123)
      None (storeWith (Some (session 2000)))))
  = Config.getAuth (snd (Auth.authenticate 1
      (loginWorld [Auth.Request "/callback" (callback (Some "10"))] 1700000000123)
      None (storeWith None))).
Proof.
  refine (proj1 (proj2 (proj2 (relogin_overwrites 1
    (loginWorld [Auth.Request "/callback" (callback (Some "10"))] 1700000000123)
    None (storeWith (Some (session 2000))) (storeWith None) _ _)) _)).
  - reflexivity.
  - reflexivity.
  - reflexivity.
Defined.

(** X5.  After a successful login the stored tokens are the callback's
    own [access_token] and [refresh_token], the stored identity is the one
    the provider returned for them (the email being empty when the provider
    gave none), and while the clock is short of the stored expiry
    [getAccessToken()] returns the callback's access token; from the expiry
    on it throws the token-expired error. *)
Theorem login_then_token_access
    (fuel : nat) (w : Auth.World) (supabaseClient : option Auth.SupabaseClient)
    (store store' : QuiboConfig) :
  Auth.authenticate fuel w supabaseClient store = (Resolved tt, store') ->
  exists p a u,
    Auth.startCallbackServer (Auth.events w) = Resolved p
    /\ Config.getAuth store' = Some a
    /\ access_token p = Some (accessToken a) /\ accessToken a <> ""
    /\ refresh_token p = Some (refreshToken a) /\ refreshToken a <> ""
    /\ Auth.session_user (Auth.setSession w (accessToken a) (refreshToken a)) = Some u
    /\ email (user a) = or_else (Auth.supabase_email u) ""
    /\ id (user a) = Auth.supabase_id u
    /\ (forall e ms, expiresAt a = Num e ->
          (floor_div_1000 ms < e ->
             Auth.getAccessToken store' ms = Return (accessToken a))
          /\ (e <= floor_div_1000 ms ->
             Auth.getAccessToken store' ms = Throw Auth.TokenExpired)).
Proof.
  intros H. apply authenticate_success in H as (p & Hp & H).
  unfold Auth.completeLogin in H.
  destruct (present (error p)); [discriminate|].
  destruct (present (access_token p)) as [at_|] eqn:Ha; [|discriminate].
  destruct (present (refresh_token p)) as [rt|] eqn:Hr; [|discriminate].
  destruct (Auth.session_error (Auth.setSession w at_ rt)); [discriminate|].
  destruct (Auth.session_user (Auth.setSession w at_ rt)) as [u|] eqn:Hu; [|discriminate].
  injection H as <-.
  apply present_truthy in Ha as [Ha Ta]. apply present_truthy in Hr as [Hr Tr].
  eexists p, _, u. split; [exact Hp|]. split; [reflexivity|].
  cbn [Config.persisted accessToken refreshToken user email id].
  split; [exact Ha|]. split.
  { intros ->. rewrite Ha in Ta. discriminate. }
  split; [exact Hr|]. split.
  { intros ->. rewrite Hr in Tr. discriminate. }
  split; [exact Hu|]. split; [reflexivity|]. split; [reflexivity|].
  intros e ms He. unfold Auth.getAccessToken.
  cbn [Config.getAuth Config.setAuth auth]. rewrite He. split; intros Hms.
  - apply ge_Num_false in Hms. now rewrite Hms.
  - apply ge_Num in Hms. now rewrite Hms.
Qed.

Lemma login_then_token_access_witness :
  exists p a u,
    Auth.startCallbackServer [Auth.Request "/callback" (callback (Some "10"))] = Resolved p
    /\ Some (loggedIn 1700000010) = Some a
    /\ access_token p = Some (accessToken a) /\ accessToken a <> ""
    /\ refresh_token p = Some (refreshToken a) /\ refreshToken a <> ""
    /\ exchange (accessToken a) (refreshToken a) = {| Auth.session_user := Some u;
                                                      Auth.session_error := None |}
    /\ email (user a) = or_else (Auth.supabase_email u) ""
    /\ id (user a) = Auth.supabase_id u.
Proof.
  destruct (login_then_token_access 1
    (loginWorld [Auth.Request "/callback" (callback (Some "10"))] 1700000000123)
    None (storeWith None) (storeWith (Some (loggedIn 1700000010))) eq_refl)
    as (p & a & u & H1 & H2 & H3 & H4 & H5 & H6 & H7 & H8 & H9 & _).
  exists p, a, u. repeat (split; [assumption|]).
  split; [|split; assumption].
  unfold exchange. cbn in H7. now injection H7 as <-.
Defined.

(** X6.  What [findAvailablePort] settles with is decided by the first
    port from [startPort] on whose probe is not "in use": it resolves with
    the port that probe reports, or rejects with that probe's error, and
    every port before it was in use; it is still searching only when every
    port probed so far was in use.  More probes never change a settled
    result. *)
Theorem findAvailablePort_first_free
    (listen : Z -> Auth.BindOutcome) (P : Z) (fuel : nat) :
  (forall q, Auth.findAvailablePort fuel listen P = Resolved q ->
     exists k : nat, (k < fuel)%nat /\ listen (P + Z.of_nat k) = Auth.Listening q
       /\ forall i : nat, (i < k)%nat ->
            listen (P + Z.of_nat i) = Auth.BindError Auth.EADDRINUSE)
  /\ (forall e, Auth.findAvailablePort fuel listen P = Rejected e ->
     exists (k : nat) code, (k < fuel)%nat /\ e = SystemError code
       /\ code <> Auth.EADDRINUSE
       /\ listen (P + Z.of_nat k) = Auth.BindError code
       /\ forall i : nat, (i < k)%nat ->
            listen (P + Z.of_nat i) = Auth.BindError Auth.EADDRINUSE)
  /\ (Auth.findAvailablePort fuel listen P = Pending <->
      forall i : nat, (i < fuel)%nat ->
        listen (P + Z.of_nat i) = Auth.BindError Auth.EADDRINUSE)
  /\ (forall more : nat, Auth.findAvailablePort fuel listen P <> Pending ->
      Auth.findAvailablePort (fuel + more) listen P
      = Auth.findAvailablePort fuel listen P).
Proof.
  revert P. induction fuel as [|fuel IH]; intros P.
  - cbn. split; [discriminate|]. split; [discriminate|].
    split; [split; [intros _ i Hi; lia | reflexivity]|]. now intros more H.
  - cbn [Auth.findAvailablePort Nat.add].
    destruct (listen P) as [port|code] eqn:HP.
    + split.
      { intros q [= <-]. exists 0%nat. rewrite Z.add_0_r.
        split; [lia|]. split; [exact HP|]. intros i Hi; lia. }
      split; [discriminate|]. split; [|reflexivity].
      split; [discriminate|]. intros H. specialize (H 0%nat ltac:(lia)).
      rewrite Z.add_0_r, HP in H. discriminate.
    + destruct (String.eqb code Auth.EADDRINUSE) eqn:Hcode.
      * apply String.eqb_eq in Hcode. subst code.
        destruct (IH (P + 1)) as (IHr & IHe & IHp & IHm).
        assert (shift : forall i : nat, P + 1 + Z.of_nat i = P + Z.of_nat (S i))
          by (intros; lia).
        assert (busy : forall k : nat,
                   (forall i : nat, (i < k)%nat ->
                      listen (P + 1 + Z.of_nat i) = Auth.BindError Auth.EADDRINUSE) ->
                   forall i : nat, (i < S k)%nat ->
                      listen (P + Z.of_nat i) = Auth.BindError Auth.EADDRINUSE).
        { intros k Hk [|i] Hi; [now rewrite Z.add_0_r|].
          rewrite <- shift. apply Hk. lia. }
        split.
        { intros q Hq. destruct (IHr q Hq) as (k & Hk & Hl & Hb).
          exists (S k). split; [lia|]. rewrite <- shift. split; [exact Hl|].
          now apply busy. }
        split.
        { intros e He. destruct (IHe e He) as (k & c & Hk & -> & Hc & Hl & Hb).
          exists (S k), c. split; [lia|]. split; [reflexivity|]. split; [exact Hc|].
          rewrite <- shift. split; [exact Hl|]. now apply busy. }
        split; [|exact IHm].
        rewrite IHp. split.
        { intros H. now apply busy. }
        { intros H i Hi. rewrite shift. apply H. lia. }
      * split; [discriminate|]. split.
        { intros e [= <-]. exists 0%nat, code. rewrite Z.add_0_r.
          apply String.eqb_neq in Hcode.
          split; [lia|]. split; [reflexivity|]. split; [exact Hcode|].
          split; [exact HP|]. intros i Hi; lia. }
        split; [|reflexivity].
        split; [discriminate|]. intros H. specialize (H 0%nat ltac:(lia)).
        rewrite Z.add_0_r, HP in H. injection H as ->.
        rewrite String.eqb_refl in Hcode. discriminate.
Qed.

Lemma findAvailablePort_first_free_witness :
  exists k : nat, (k < 3)%nat /\ twoBusy (54321 + Z.of_nat k) = Auth.Listening 54323
    /\ forall i : nat, (i < k)%nat ->
         twoBusy (54321 + Z.of_nat i) = Auth.BindError Auth.EADDRINUSE.
Proof.
  refine (proj1 (findAvailablePort_first_free twoBusy 54321 3) 54323 _).
  reflexivity.
Defined.

(* ===================================================================== *)
(** ** Further properties: the callback server *)
(* ===================================================================== *)

Section ListenerInvariants.

Import Auth.

Lemma handle_disarmed (l : Listener) (ev : Event) :
  timerArmed l = false -> timerArmed (handle l ev) = false.
Proof.
  intros H. destruct ev as [pathname params| |e]; cbn [handle].
  - now destruct (String.eqb pathname "/callback").
  - now rewrite H.
  - reflexivity.
Qed.

Lemma handle_closed (l : Listener) (ev : Event) :
  accepting l = false -> accepting (handle l ev) = false.
Proof.
  intros H. destruct ev as [pathname params| |e]; cbn [handle].
  - now destruct (String.eqb pathname "/callback").
  - now destruct (timerArmed l).
  - exact H.
Qed.

Lemma fold_disarmed_closed (evs : list Event) (l : Listener) :
  timerArmed l = false -> accepting l = false ->
  timerArmed (fold_left handle evs l) = false
  /\ accepting (fold_left handle evs l) = false.
Proof.
  revert l. induction evs as [|ev evs IH]; intros l Ht Ha; [now split|].
  cbn [fold_left]. apply IH; [now apply handle_disarmed | now apply handle_closed].
Qed.

Lemma handle_replies (l : Listener) (ev : Event) :
  length (replies (handle l ev))
  = (length (replies l) + if isRequest ev then 1 else 0)%nat.
Proof.
  destruct ev as [pathname params| |e]; cbn [handle isRequest].
  - destruct (String.eqb pathname "/callback"); cbn [replies];
      rewrite length_app; reflexivity.
  - destruct (timerArmed l); cbn [replies]; lia.
  - cbn [replies]. lia.
Qed.

Lemma fold_replies (evs : list Event) (l : Listener) :
  length (replies (fold_left handle evs l))
  = (length (replies l) + length (List.filter isRequest evs))%nat.
Proof.
  revert l. induction evs as [|ev evs IH]; intros l; cbn [fold_left List.filter length]; [lia|].
  rewrite IH, handle_replies. destruct (isRequest ev); cbn [length]; lia.
Qed.

Lemma run_elsewhere_replies (evs : list Event) :
  Forall elsewhere evs ->
  replies (run evs) = repeat NotFound (length evs) /\ accepting (run evs) = true.
Proof.
  induction evs as [|ev evs IH] using rev_ind; intros H; [now split|].
  apply Forall_app in H as [Hpre Hev]. inversion_clear Hev as [|? ? Hev' _].
  destruct (IH Hpre) as [Hr Ha]. rewrite run_app. cbn [fold_left].
  destruct ev as [pathname params| |e]; cbn [elsewhere] in Hev'; [|contradiction..].
  apply String.eqb_neq in Hev'. cbn [handle]. rewrite Hev'. cbn [replies accepting].
  split; [|exact Ha].
  rewrite Hr, length_app. cbn [length].
  rewrite repeat_app. reflexivity.
Qed.

End ListenerInvariants.

(** X7.  The first request for the callback path decides the login: the
    promise is resolved with the query of that request whatever arrives
    after it (the timer, a server error, a second callback), and from then
    on the timer is cleared and the server closed. *)
Theorem first_callback_wins
    (pre post : list Auth.Event) (params : OAuthCallbackParams) :
  Forall Auth.elsewhere pre ->
  Auth.startCallbackServer (pre ++ Auth.Request "/callback" params :: post)
    = Resolved params
  /\ Auth.timerArmed (Auth.run (pre ++ Auth.Request "/callback" params :: post)) = false
  /\ Auth.accepting (Auth.run (pre ++ Auth.Request "/callback" params :: post)) = false.
Proof.
  intros H. split; [now apply run_first_callback|].
  rewrite run_app. cbn [fold_left].
  apply fold_disarmed_closed; cbn [Auth.handle String.eqb Ascii.eqb Bool.eqb];
    reflexivity.
Qed.

Lemma first_callback_wins_witness :
  Auth.startCallbackServer
    [Auth.Request "/favicon.ico" (callback None);
     Auth.Request "/callback" (callback (Some "10"));
     Auth.TimerFired;
     Auth.Request "/callback" deniedCallback]
  = Resolved (callback (Some "10")).
Proof.
  refine (proj1 (first_callback_wins
    [Auth.Request "/favicon.ico" (callback None)]
    [Auth.TimerFired; Auth.Request "/callback" deniedCallback]
    (callback (Some "10")) _)).
  constructor; [discriminate | constructor].
Defined.

(** X8.  Every request gets exactly one reply, and nothing else is
    replied to; as long as only other paths are requested, each reply is
    the 404, the promise stays pending, the timer stays armed and the
    server stays open. *)
Theorem one_reply_per_request (evs : list Auth.Event) :
  length (Auth.replies (Auth.run evs)) = length (List.filter isRequest evs)
  /\ (Forall Auth.elsewhere evs ->
      Auth.replies (Auth.run evs) = repeat Auth.NotFound (length evs)
      /\ Auth.startCallbackServer evs = Pending
      /\ Auth.timerArmed (Auth.run evs) = true
      /\ Auth.accepting (Auth.run evs) = true).
Proof.
  split.
  - unfold Auth.run. now rewrite fold_replies.
  - intros H. destruct (run_elsewhere_replies evs H) as [Hr Ha].
    destruct (run_elsewhere evs H) as [Hp Ht].
    repeat split; assumption.
Qed.

Lemma one_reply_per_request_witness :
  Auth.replies (Auth.run [Auth.Request "/favicon.ico" (callback None);
                          Auth.Request "/" (callback None)])
  = [Auth.NotFound; Auth.NotFound].
Proof.
  refine (proj1 (proj2 (one_reply_per_request
    [Auth.Request "/favicon.ico" (callback None); Auth.Request "/" (callback None)]) _)).
  constructor; [discriminate | constructor; [discriminate | constructor]].
Defined.

(** X9.  With a Supabase client at hand (made earlier, or makeable from
    the two settings), a free port and an authorization URL from the
    provider: when the callback server raises an error before any request
    for the callback path (the port found free was taken meanwhile, say),
    its promise is rejected with that very error whatever arrives later,
    and [authenticate()] is rejected with it and stores nothing; while
    nothing but requests for other paths arrives, [authenticate()] is still
    waiting and has stored nothing. *)
Theorem server_error_fails_login
    (fuel : nat) (w : Auth.World) (supabaseClient : option Auth.SupabaseClient)
    (store : QuiboConfig) :
  Auth.awaitsCallback fuel w supabaseClient store ->
  (forall pre post e,
      Auth.events w = (pre ++ Auth.ServerError e :: post)%list ->
      Forall Auth.elsewhere pre ->
      Auth.startCallbackServer (Auth.events w) = Rejected e
      /\ Auth.authenticate fuel w supabaseClient store = (Rejected e, store))
  /\ (Forall Auth.elsewhere (Auth.events w) ->
      Auth.authenticate fuel w supabaseClient store = (Pending, store)).
Proof.
  intros Hwait. split.
  - intros pre post e Hevs Hpre.
    assert (Hrej : Auth.startCallbackServer (Auth.events w) = Rejected e).
    { rewrite Hevs. unfold Auth.startCallbackServer. rewrite run_app.
      cbn [fold_left]. destruct (run_elsewhere pre Hpre) as [Hp _].
      rewrite fold_settled; cbn [Auth.handle Auth.promise]; rewrite Hp;
        [reflexivity | discriminate]. }
    split; [exact Hrej|].
    rewrite authenticate_awaits by assumption. now rewrite Hrej.
  - intros Hall. rewrite authenticate_awaits by assumption.
    unfold Auth.startCallbackServer.
    now destruct (run_elsewhere _ Hall) as [-> _].
Qed.

Lemma server_error_fails_login_witness :
  Auth.authenticate 1
    (loginWorld [Auth.ServerError (SystemError "EADDRINUSE");
                 Auth.Request "/callback" (callback None)] 1700000000123)
    None (storeWith None)
  = (Rejected (SystemError "EADDRINUSE"), storeWith None).
Proof.
  refine (proj2 (proj1 (server_error_fails_login 1
    (loginWorld [Auth.ServerError (SystemError "EADDRINUSE");
                 Auth.Request "/callback" (callback None)] 1700000000123)
    None (storeWith None) _) [] [Auth.Request "/callback" (callback None)]
    (SystemError "EADDRINUSE") _ _)).
  - split; [eexists; reflexivity|].
    exists 54321. split; [reflexivity | split; reflexivity].
  - reflexivity.
  - constructor.
Defined.

(** X10.  The other ways a login fails, each leaving the store as it was.
    With no client made earlier, an empty [supabaseUrl] rejects with
    "SUPABASE_URL environment variable is required" and, the URL being
    there, an empty [supabaseAnonKey] rejects with "SUPABASE_ANON_KEY
    environment variable is required", before any port is probed; with
    both settings there, an error thrown by [createClient] rejects with
    that error.  With a client at hand: a bind error that is not "in use" rejects with that
    error before the provider is asked; a provider answer with an error or
    without a URL rejects with "Failed to generate OAuth URL" and the
    provider's message (or "Unknown error") whatever the callback server
    would receive; and tokens that the provider does not turn into a user
    reject with "Failed to establish session" and its message. *)
Theorem login_fails_without_storing
    (fuel : nat) (w : Auth.World) (supabaseClient : option Auth.SupabaseClient)
    (store : QuiboConfig) :
  (supabaseClient = None -> supabaseUrl store = "" ->
     Auth.authenticate fuel w supabaseClient store
     = (Rejected (Error "SUPABASE_URL environment variable is required"), store))
  /\ (supabaseClient = None -> supabaseUrl store <> "" -> supabaseAnonKey store = "" ->
     Auth.authenticate fuel w supabaseClient store
     = (Rejected (Error "SUPABASE_ANON_KEY environment variable is required"), store))
  /\ (forall e, supabaseClient = None ->
      supabaseUrl store <> "" -> supabaseAnonKey store <> "" ->
      Auth.createClient w (supabaseUrl store) (supabaseAnonKey store) = Throw e ->
      Auth.authenticate fuel w supabaseClient store = (Rejected e, store))
  /\ (forall client e,
      fst (Auth.getSupabaseClient w supabaseClient store) = Return client ->
      Auth.findAvailablePort fuel (Auth.listen w) Auth.defaultStartPort = Rejected e ->
      Auth.authenticate fuel w supabaseClient store = (Rejected e, store))
  /\ (forall client port,
      fst (Auth.getSupabaseClient w supabaseClient store) = Return client ->
      Auth.findAvailablePort fuel (Auth.listen w) Auth.defaultStartPort
        = Resolved port ->
      Auth.oauth_error (Auth.signInWithOAuth w (Auth.redirectUrl port)) <> None
      \/ truthy (Auth.data_url (Auth.signInWithOAuth w (Auth.redirectUrl port))) = false ->
      Auth.authenticate fuel w supabaseClient store
      = (Rejected (Error ("Failed to generate OAuth URL: "
                          ++ or_else (Auth.oauth_error
                                        (Auth.signInWithOAuth w (Auth.redirectUrl port)))
                                     "Unknown error")),
         store))
  /\ (forall p accessToken refreshToken,
      Auth.awaitsCallback fuel w supabaseClient store ->
      Auth.startCallbackServer (Auth.events w) = Resolved p ->
      truthy (error p) = false ->
      access_token p = Some accessToken -> accessToken <> "" ->
      refresh_token p = Some refreshToken -> refreshToken <> "" ->
      Auth.session_error (Auth.setSession w accessToken refreshToken) <> None
      \/ Auth.session_user (Auth.setSession w accessToken refreshToken) = None ->
      Auth.authenticate fuel w supabaseClient store
      = (Rejected (Error ("Failed to establish session: "
                          ++ or_else (Auth.session_error
                                        (Auth.setSession w accessToken refreshToken))
                                     "Unknown error")),
         store)).
Proof.
  split; [|split; [|split; [|split; [|split]]]].
  - intros -> Hurl.
    unfold Auth.authenticate, Auth.getSupabaseClient, Config.getSupabaseUrl.
    now rewrite Hurl.
  - intros -> Hurl Hkey. apply String.eqb_neq in Hurl.
    unfold Auth.authenticate, Auth.getSupabaseClient, Config.getSupabaseUrl,
      Config.getSupabaseAnonKey.
    cbn [truthy]. now rewrite Hurl, Hkey.
  - intros e -> Hurl Hkey He. apply String.eqb_neq in Hurl, Hkey.
    unfold Auth.authenticate, Auth.getSupabaseClient, Config.getSupabaseUrl,
      Config.getSupabaseAnonKey.
    cbn [truthy]. rewrite Hurl, Hkey. cbn [negb]. now rewrite He.
  - intros client e Hclient He.
    rewrite (authenticate_with_client _ _ _ _ _ Hclient). unfold Auth.login.
    now rewrite He.
  - intros client port Hclient Hport Hbad.
    rewrite (authenticate_with_client _ _ _ _ _ Hclient).
    unfold Auth.login, Auth.AuthUrlMissing.
    rewrite Hport. destruct Hbad as [Herr | Hurl].
    + destruct (Auth.oauth_error _); [reflexivity | now elim Herr].
    + rewrite Hurl. now rewrite orb_true_r.
  - intros p at_ rt Hwait Hp He Ha Hane Hr Hrne Hbad.
    rewrite authenticate_awaits by assumption. rewrite Hp.
    unfold Auth.completeLogin, Auth.SessionExchangeFailed, present.
    rewrite He, Ha, Hr. cbn [truthy].
    apply String.eqb_neq in Hane, Hrne. rewrite Hane, Hrne. cbn [negb].
    destruct Hbad as [Herr | Huser].
    + destruct (Auth.session_error _); [reflexivity | now elim Herr].
    + rewrite Huser. now destruct (Auth.session_error _).
Qed.

Lemma login_fails_without_storing_witness :
  Auth.authenticate 1
    (worldWith provider exchange [Auth.Request "/callback" (callback None)])
    None (unconfigured (Some (session 2000)))
  = (Rejected (Error "SUPABASE_URL environment variable is required"),
     unconfigured (Some (session 2000)))
  /\ Auth.authenticate 1 clientlessWorld None (storeWith (Some (session 2000)))
  = (Rejected (Error "Invalid supabaseUrl: Must be a valid HTTP or HTTPS URL."),
     storeWith (Some (session 2000)))
  /\ Auth.authenticate 1
    (worldWith failingProvider exchange [Auth.Request "/callback" (callback None)])
    None (storeWith None)
  = (Rejected (Error "Failed to generate OAuth URL: provider is not enabled"),
     storeWith None)
  /\ Auth.authenticate 1
    (worldWith provider rejectingExchange [Auth.Request "/callback" (callback None)])
    None (storeWith None)
  = (Rejected (Error "Failed to establish session: invalid JWT"), storeWith None).
Proof.
  split; [|split; [|split]].
  - refine (proj1 (login_fails_without_storing 1
      (worldWith provider exchange [Auth.Request "/callback" (callback None)])
      None (unconfigured (Some (session 2000)))) _ _).
    + reflexivity.
    + reflexivity.
  - refine (proj1 (proj2 (proj2 (login_fails_without_storing 1 clientlessWorld
      None (storeWith (Some (session 2000))))))
      (Error "Invalid supabaseUrl: Must be a valid HTTP or HTTPS URL.") _ _ _ _).
    + reflexivity.
    + discriminate.
    + discriminate.
    + reflexivity.
  - refine (proj1 (proj2 (proj2 (proj2 (proj2 (login_fails_without_storing 1
      (worldWith failingProvider exchange [Auth.Request "/callback" (callback None)])
      None (storeWith None))))))
      {| Auth.clientUrl := "https://project.supabase.co"; Auth.clientKey := "anon-key" |}
      54321 _ _ _).
    + reflexivity.
    + reflexivity.
    + left. discriminate.
  - refine (proj2 (proj2 (proj2 (proj2 (proj2 (login_fails_without_storing 1
      (worldWith provider rejectingExchange [Auth.Request "/callback" (callback None)])
      None (storeWith None)))))) (callback None) "a" "b" _ _ _ _ _ _ _ _).
    + split; [eexists; reflexivity|].
      exists 54321. split; [reflexivity | split; reflexivity].
    + reflexivity.
    + reflexivity.
    + reflexivity.
    + discriminate.
    + reflexivity.
    + discriminate.
    + left. discriminate.
Defined.

(* ===================================================================== *)
(** ** Further properties: the API client *)
(* ===================================================================== *)

Section PathSegments.

Lemma uri_unreserved_not_slash (c : ascii) :
  uri_unreserved c = true -> Ascii.eqb "/" c = false.
Proof.
  intros H. destruct (Ascii.eqb "/" c) eqn:E; [|reflexivity].
  apply Ascii.eqb_eq in E. subst c. discriminate H.
Qed.

(** [encodeURIComponent] leaves no slash. *)
Lemma encodeURIComponent_no_slash (s : string) :
  count_char "/" (encodeURIComponent s) = 0%nat.
Proof.
  induction s as [|c s IH]; [reflexivity|].
  cbn [encodeURIComponent]. rewrite count_char_app, IH.
  destruct (uri_unreserved c) eqn:E.
  - cbn [count_char]. now rewrite (uri_unreserved_not_slash _ E).
  - now rewrite percent_no_slash.
Qed.

(** Where the first slash is, is decided by the string. *)
Lemma first_slash_unique (a b x y : string) :
  count_char "/" a = 0%nat -> count_char "/" b = 0%nat ->
  a ++ String "/" x = b ++ String "/" y -> a = b.
Proof.
  revert b. induction a as [|c a IH]; intros [|d b] Ha Hb H.
  - reflexivity.
  - rewrite app_empty_l, app_cons in H. injection H as <- _.
    cbn in Hb. discriminate.
  - rewrite app_empty_l, app_cons in H. injection H as -> _.
    cbn in Ha. discriminate.
  - rewrite !app_cons in H. injection H as -> H.
    cbn [count_char] in Ha, Hb.
    f_equal. apply IH with (b := b); [lia | lia | exact H].
Qed.

(** In an endpoint [/word/name] without further slashes, a pattern
    [/w/] occurs exactly when [w] is [word]. *)
Lemma includes_segment (word w rest : string) :
  count_char "/" word = 0%nat -> count_char "/" w = 0%nat ->
  count_char "/" rest = 0%nat ->
  includes ("/" ++ word ++ "/" ++ rest) ("/" ++ w ++ "/") = String.eqb word w.
Proof.
  intros Hword Hw Hrest.
  destruct (String.eqb word w) eqn:E.
  - apply String.eqb_eq in E. subst w.
    rewrite <- (app_empty_l ("/" ++ word ++ "/" ++ rest)).
    replace ("/" ++ word ++ "/" ++ rest) with (("/" ++ word ++ "/") ++ rest)
      by (now rewrite !app_assoc_string).
    apply includes_intro.
  - destruct (includes _ _) eqn:I; [|reflexivity].
    apply includes_elim in I as (pre & post & H).
    assert (Hcount := f_equal (count_char "/") H).
    rewrite !app_cons, !app_empty_l in Hcount.
    rewrite !count_char_app in Hcount. cbn [count_char Ascii.eqb Bool.eqb] in Hcount.
    rewrite !count_char_app in Hcount. cbn [count_char Ascii.eqb Bool.eqb] in Hcount.
    destruct pre as [|c pre].
    + rewrite !app_cons, !app_empty_l in H. injection H as H.
      rewrite app_assoc_string, !app_cons, !app_empty_l in H.
      apply first_slash_unique in H; [|assumption..].
      subst w. now rewrite String.eqb_refl in E.
    + rewrite !app_cons, !app_empty_l in H. injection H as <- _.
      cbn [count_char Ascii.eqb Bool.eqb] in Hcount. lia.
Qed.

Lemma resourceName_segment (word name : string) :
  count_char "/" word = 0%nat ->
  Api.resourceName ("/" ++ word ++ "/" ++ encodeURIComponent name)
  = if String.eqb word "projects" then "Project"
    else if String.eqb word "outline" then "Outline"
    else if String.eqb word "section" then "Section"
    else "Resource".
Proof.
  intros H. unfold Api.resourceName.
  rewrite (includes_segment word "projects"), (includes_segment word "outline"),
    (includes_segment word "section");
    auto using encodeURIComponent_no_slash.
Qed.

End PathSegments.

Section ClientOutcomes.

Variable Json : Type.
Variable JSON_parse : string -> option Json.
Variable member : Json -> string -> completion (option string).

Local Abbreviation makeRequest := (Api.makeRequest Json JSON_parse member).
Local Abbreviation httpErrorMessage := (Api.httpErrorMessage Json JSON_parse member).

(** X11.  Without a usable token no request is made: with no session
    stored, or with a session whose expiry has come, [makeRequest] throws
    what [getAccessToken()] throws, unchanged, whatever the network would
    have answered; so after [clearAuth()] every request fails with the
    not-authenticated error. *)
Theorem token_failure_stops_request (store : QuiboConfig) (ms : Z)
    (fetch : string -> Api.RequestInit -> Api.FetchOutcome)
    (endpoint : string) (options : Api.RequestInit) :
  (forall e, Auth.getAccessToken store ms = Throw e ->
     makeRequest store ms fetch endpoint options = Throw e)
  /\ (Config.getAuth store = None ->
      makeRequest store ms fetch endpoint options = Throw Auth.NotAuthenticated)
  /\ (forall a e, Config.getAuth store = Some a -> expiresAt a = Num e ->
      e <= floor_div_1000 ms ->
      makeRequest store ms fetch endpoint options = Throw Auth.TokenExpired)
  /\ makeRequest (Auth.clearAuth store) ms fetch endpoint options
     = Throw Auth.NotAuthenticated.
Proof.
  assert (H : forall s e, Auth.getAccessToken s ms = Throw e ->
                          makeRequest s ms fetch endpoint options = Throw e).
  { intros s e He. unfold Api.makeRequest. rewrite He.
    unfold Auth.getAccessToken in He.
    destruct (Config.getAuth s) as [a|]; [|now injection He as <-].
    destruct (ge _ _); [now injection He as <- | discriminate]. }
  split; [apply H|]. split; [|split].
  - intros Hnone. apply H. unfold Auth.getAccessToken. now rewrite Hnone.
  - intros a e Ha He Hle. apply H. unfold Auth.getAccessToken.
    rewrite Ha, He. apply ge_Num in Hle. now rewrite Hle.
  - now apply H.
Qed.

(** X12.  A response whose status is outside 200..299 never yields a
    result: [makeRequest] throws an [ApiError] that carries the response's
    own status code.  For 401 it is the session-expired error, whatever the
    endpoint and the body; for every other status the raw body travels
    with the error. *)
Theorem error_status_becomes_ApiError (store : QuiboConfig) (ms : Z)
    (fetch : string -> Api.RequestInit -> Api.FetchOutcome)
    (endpoint : string) (options : Api.RequestInit) (token : string) (r : Api.Response) :
  Auth.getAccessToken store ms = Return token ->
  fetch (Config.getBackendUrl store ++ endpoint) (Api.requestInit token options)
    = Api.Responds r ->
  Api.ok r = false ->
  (exists message responseBody,
      makeRequest store ms fetch endpoint options
      = Throw (ApiError message (Api.status r) responseBody)
      /\ (Api.status r <> 401 -> responseBody = Some (Api.text r)))
  /\ (Api.status r = 401 ->
      makeRequest store ms fetch endpoint options = Throw Api.SessionExpired)
  /\ (Api.status r <> 401 -> Api.status r <> 404 ->
      makeRequest store ms fetch endpoint options
      = Throw (ApiError (httpErrorMessage r) (Api.status r) (Some (Api.text r)))).
Proof.
  intros Htok Hfetch Hok. unfold Api.makeRequest. rewrite Htok, Hfetch.
  unfold Api.classify. rewrite Hok. cbn [negb].
  destruct (Api.status r =? 401) eqn:E1.
  - apply Z.eqb_eq in E1. split; [|split].
    + exists "Your session has expired. Please re-authenticate using the authenticate tool.",
        None.
      rewrite E1. split; [reflexivity | now intros ne].
    + reflexivity.
    + now intros ne.
  - apply Z.eqb_neq in E1. destruct (Api.status r =? 404) eqn:E4.
    + apply Z.eqb_eq in E4. split; [|split].
      * eexists _, _. unfold Api.notFound. rewrite E4. split; reflexivity.
      * now intros H.
      * now intros _ ne.
    + split; [|split].
      * eexists _, _. split; reflexivity.
      * now intros H.
      * reflexivity.
Qed.

(** X14.  When [fetch] itself fails with a [TypeError] whose message
    mentions "fetch", [makeRequest] throws the connection error, whose
    message names the backend URL; any other failure of [fetch] is thrown
    on as it is. *)
Theorem transport_failure_names_backend (store : QuiboConfig) (ms : Z)
    (fetch : string -> Api.RequestInit -> Api.FetchOutcome)
    (endpoint : string) (options : Api.RequestInit) (token : string) (e : JsError) :
  Auth.getAccessToken store ms = Return token ->
  fetch (Config.getBackendUrl store ++ endpoint) (Api.requestInit token options)
    = Api.Fails e ->
  (forall message, e = TypeError message -> includes message "fetch" = true ->
     makeRequest store ms fetch endpoint options
       = Throw (Error ("Failed to connect to Quibo backend at "
                       ++ Config.getBackendUrl store
                       ++ ". Please check your network connection and backend URL."))
     /\ includes ("Failed to connect to Quibo backend at "
                  ++ Config.getBackendUrl store
                  ++ ". Please check your network connection and backend URL.")
                 (Config.getBackendUrl store) = true)
  /\ ((forall message, e = TypeError message -> includes message "fetch" = false) ->
      makeRequest store ms fetch endpoint options = Throw e).
Proof.
  intros Htok Hfetch. unfold Api.makeRequest. rewrite Htok, Hfetch. split.
  - intros message -> Hm. cbn [Api.rethrow]. rewrite Hm. split; [reflexivity|].
    apply includes_intro.
  - intros Hother. destruct e as [m|m|m|m c b|c]; try reflexivity.
    cbn [Api.rethrow]. now rewrite (Hother m eq_refl).
Qed.

(** X15.  [makeRequest] returns a result only for a response with a
    status in 200..299, obtained with the stored token: the parsed body
    when the content type mentions "application/json", and the raw body
    text otherwise, also when there is no content type. *)
Theorem result_only_from_ok_response (store : QuiboConfig) (ms : Z)
    (fetch : string -> Api.RequestInit -> Api.FetchOutcome)
    (endpoint : string) (options : Api.RequestInit) (v : Api.Payload Json) :
  makeRequest store ms fetch endpoint options = Return v ->
  exists a r,
    Config.getAuth store = Some a
    /\ fetch (Config.getBackendUrl store ++ endpoint)
             (Api.requestInit (accessToken a) options) = Api.Responds r
    /\ 200 <= Api.status r <= 299
    /\ ((exists contentType j,
            Api.content_type r = Some contentType
            /\ includes contentType "application/json" = true
            /\ JSON_parse (Api.text r) = Some j
            /\ v = Api.JsonPayload Json j)
        \/ (v = Api.TextPayload Json (Api.text r)
            /\ forall contentType, Api.content_type r = Some contentType ->
                 includes contentType "application/json" = false)).
Proof.
  unfold Api.makeRequest. intros H.
  destruct (Auth.getAccessToken store ms) as [token|] eqn:Htok; [|discriminate].
  destruct (proj1 (proj2 (status_agrees_with_token_access store ms)) token Htok)
    as (a & Ha & ->).
  destruct (fetch _ _) as [r|] eqn:Hfetch; [|discriminate].
  destruct (Api.classify _ _ _ endpoint r) as [v'|] eqn:Hc; [|discriminate].
  injection H as ->.
  exists a, r. split; [exact Ha|]. split; [exact Hfetch|].
  unfold Api.classify in Hc.
  destruct (Api.status r =? 401); [discriminate|].
  destruct (Api.status r =? 404); [discriminate|].
  destruct (Api.ok r) eqn:Hok; [|discriminate]. cbn [negb] in Hc.
  split.
  { unfold Api.ok in Hok. apply andb_true_iff in Hok as [H1 H2].
    apply Z.leb_le in H1, H2. lia. }
  destruct (Api.content_type r) as [ct|].
  - destruct (includes ct "application/json") eqn:Hct.
    + destruct (JSON_parse (Api.text r)) as [j|] eqn:Hj; [|discriminate].
      injection Hc as <-. left. now exists ct, j.
    + injection Hc as <-. right. split; [reflexivity|]. now intros ? [= <-].
  - injection Hc as <-. right. split; [reflexivity|]. discriminate.
Qed.

(** X16.  A project name cannot change how a 404 is named: in an
    endpoint [/word/<encodeURIComponent(name)>] the kind is decided by
    [word] alone, because the encoding leaves no slash in the name.  So a
    404 from [getProjectStatus], [resumeProject], [compileDraft] or
    [generateSocialContent] is reported as a Resource that was not found,
    for every project name. *)
Theorem not_found_kind_ignores_project_name (store : QuiboConfig) (ms : Z)
    (fetch : string -> Api.RequestInit -> Api.FetchOutcome) (body : string) :
  (forall a, Config.getAuth store = Some a ->
      ge (Num (floor_div_1000 ms)) (expiresAt a) = false) ->
  Config.getAuth store <> None ->
  (forall url init, fetch url init
     = Api.Responds {| Api.status := 404; Api.content_type := None; Api.text := body |}) ->
  let resourceMissing : completion (Api.Payload Json) :=
    Throw (ApiError ("Resource not found. "
                     ++ or_else (Some body) "The requested resource does not exist.")
                    404 (Some body)) in
  (forall word name, count_char "/" word = 0%nat ->
     Api.resourceName ("/" ++ word ++ "/" ++ encodeURIComponent name)
     = if String.eqb word "projects" then "Project"
       else if String.eqb word "outline" then "Outline"
       else if String.eqb word "section" then "Section"
       else "Resource")
  /\ (forall projectId,
        Api.getProjectStatus Json JSON_parse member store ms fetch projectId
        = resourceMissing)
  /\ (forall projectId,
        Api.resumeProject Json JSON_parse member store ms fetch projectId
        = resourceMissing)
  /\ (forall projectName jobId,
        Api.compileDraft Json JSON_parse member store ms fetch projectName jobId
        = resourceMissing)
  /\ (forall projectName,
        Api.generateSocialContent Json JSON_parse member store ms fetch projectName
        = resourceMissing).
Proof.
  intros Hfresh Hsome Hfetch resourceMissing.
  destruct (Config.getAuth store) as [a|] eqn:Ha; [|now elim Hsome].
  assert (Htok : Auth.getAccessToken store ms = Return (accessToken a)).
  { unfold Auth.getAccessToken. now rewrite Ha, (Hfresh a eq_refl). }
  assert (H404 : forall word name options,
             count_char "/" word = 0%nat ->
             (if String.eqb word "projects" then "Project"
              else if String.eqb word "outline" then "Outline"
              else if String.eqb word "section" then "Section"
              else "Resource") = "Resource" ->
             makeRequest store ms fetch
               ("/" ++ word ++ "/" ++ encodeURIComponent name) options
             = resourceMissing).
  { intros word name options Hword Hkind.
    rewrite (makeRequest_404 Json JSON_parse member store ms fetch _ options
               (accessToken a) _ Htok (Hfetch _ _) eq_refl).
    unfold Api.notFound. rewrite (resourceName_segment word name Hword), Hkind.
    reflexivity. }
  split; [intros word name; apply resourceName_segment|].
  split; [|split; [|split]].
  - intros projectId. apply (H404 "project_status"); reflexivity.
  - intros projectId. apply (H404 "resume"); reflexivity.
  - intros projectName jobId. apply (H404 "compile_draft"); reflexivity.
  - intros projectName. apply (H404 "generate_social_content"); reflexivity.
Qed.

End ClientOutcomes.

Lemma transport_failure_names_backend_witness :
  Api.makeRequest unit noJson noMember (storeWith (Some (session 2000))) 1000000
    unreachable "/projects" Api.noOptions
  = Throw (Error ("Failed to connect to Quibo backend at http://localhost:8000"
                  ++ ". Please check your network connection and backend URL.")).
Proof.
  refine (proj1 (proj1 (transport_failure_names_backend unit noJson noMember
    (storeWith (Some (session 2000))) 1000000 unreachable "/projects" Api.noOptions
    "header.payload.signature" (TypeError "fetch failed") _ _)
    "fetch failed" _ _)); reflexivity.
Defined.

Lemma result_only_from_ok_response_witness :
  exists a r,
    Some (session 2000) = Some a
    /\ answering 200 (Some "text/plain") "pong" ("http://localhost:8000" ++ "/ping")
         (Api.requestInit (accessToken a) Api.noOptions) = Api.Responds r
    /\ 200 <= Api.status r <= 299
    /\ ((exists contentType j,
            Api.content_type r = Some contentType
            /\ includes contentType "application/json" = true
            /\ noJson (Api.text r) = Some j
            /\ Api.TextPayload unit "pong" = Api.JsonPayload unit j)
        \/ (Api.TextPayload unit "pong" = Api.TextPayload unit (Api.text r)
            /\ forall contentType, Api.content_type r = Some contentType ->
                 includes contentType "application/json" = false)).
Proof.
  exact (result_only_from_ok_response unit noJson noMember
    (storeWith (Some (session 2000))) 1000000
    (answering 200 (Some "text/plain") "pong") "/ping" Api.noOptions
    (Api.TextPayload unit "pong") eq_refl).
Defined.

Lemma not_found_kind_ignores_project_name_witness :
  Api.getProjectStatus unit noJson noMember (storeWith (Some (session 2000))) 1000000
    (answering 404 None "") "x/projects/y"
  = Throw (ApiError "Resource not found. The requested resource does not exist."
                    404 (Some "")).
Proof.
  refine (proj1 (proj2 (not_found_kind_ignores_project_name unit noJson noMember
    (storeWith (Some (session 2000))) 1000000 (answering 404 None "") "" _ _ _))
    "x/projects/y").
  - intros a [= <-]. reflexivity.
  - discriminate.
  - reflexivity.
Defined.

Lemma token_failure_stops_request_witness :
  Api.makeRequest unit noJson noMember (storeWith (Some (session 1000))) 1000000
    (answering 200 None "fine") "/projects" Api.noOptions
  = Throw Auth.TokenExpired.
Proof.
  refine (proj1 (proj2 (proj2 (token_failure_stops_request unit noJson noMember
    (storeWith (Some (session 1000))) 1000000 (answering 200 None "fine")
    "/projects" Api.noOptions))) (session 1000) 1000 _ _ _).
  - reflexivity.
  - reflexivity.
  - vm_compute. discriminate.
Defined.

Lemma error_status_becomes_ApiError_witness :
  Api.makeRequest unit noJson noMember (storeWith (Some (session 2000))) 1000000
    (answering 401 None "whatever") "/outline/x" Api.noOptions
  = Throw Api.SessionExpired.
Proof.
  refine (proj1 (proj2 (error_status_becomes_ApiError unit noJson noMember
    (storeWith (Some (session 2000))) 1000000 (answering 401 None "whatever")
    "/outline/x" Api.noOptions "header.payload.signature"
    {| Api.status := 401; Api.content_type := None; Api.text := "whatever" |}
    _ _ _)) _); reflexivity.
Defined.

(* ===================================================================== *)
(** ** Further properties: expiry and encoding *)
(* ===================================================================== *)

(** X17.  A login whose callback carries an [expires_in] that parses to
    zero or to a negative number succeeds all the same: with a client, a
    port and an authorization URL at hand, no [error] in the callback, both
    tokens there and the provider returning a user for them,
    [authenticate()] resolves.  The session it stores is expired from the
    start: at the time of storing and at every later time [checkAuth()]
    reports "not authenticated, expired" and [getAccessToken()] throws the
    token-expired error.  (The sum of clock and lifetime is taken to be of
    magnitude at most 2^53, where it is exact.) *)
Theorem nonpositive_expiry_gives_expired_session
    (fuel : nat) (w : Auth.World) (supabaseClient : option Auth.SupabaseClient)
    (store : QuiboConfig) (p : OAuthCallbackParams)
    (accessToken refreshToken : string) (u : Auth.SupabaseUser) (n : Z) :
  Auth.awaitsCallback fuel w supabaseClient store ->
  Auth.startCallbackServer (Auth.events w) = Resolved p ->
  truthy (error p) = false ->
  access_token p = Some accessToken -> accessToken <> "" ->
  refresh_token p = Some refreshToken -> refreshToken <> "" ->
  Auth.session_error (Auth.setSession w accessToken refreshToken) = None ->
  Auth.session_user (Auth.setSession w accessToken refreshToken) = Some u ->
  parseInt (or_else (expires_in p) "3600") = Num n ->
  n <= 0 ->
  Z.abs (floor_div_1000 (Auth.Date_now w) + n) <= 2 ^ 53 ->
  fst (Auth.authenticate fuel w supabaseClient store) = Resolved tt
  /\ forall ms, floor_div_1000 (Auth.Date_now w) <= floor_div_1000 ms ->
       authenticated (Auth.checkAuth (snd (Auth.authenticate fuel w supabaseClient store)) ms)
       = false
       /\ isExpired (Auth.checkAuth (snd (Auth.authenticate fuel w supabaseClient store)) ms)
          = true
       /\ Auth.getAccessToken (snd (Auth.authenticate fuel w supabaseClient store)) ms
          = Throw Auth.TokenExpired.
Proof.
  intros Hwait Hp He Ha Hane Hr Hrne Herr Huser Hn Hle Hsafe.
  rewrite authenticate_awaits by assumption. rewrite Hp.
  unfold Auth.completeLogin, present.
  rewrite He, Ha, Hr. cbn [truthy].
  apply String.eqb_neq in Hane, Hrne. rewrite Hane, Hrne. cbn [negb].
  rewrite Herr, Huser, Hn, (add_safe _ _ Hsafe).
  cbn [fst snd]. split; [reflexivity|]. intros ms Hms.
  unfold Auth.checkAuth, Auth.getAccessToken.
  cbn [Config.getAuth Config.setAuth Config.persisted auth expiresAt json_number].
  assert (Hge : ge (Num (floor_div_1000 ms))
                   (Num (floor_div_1000 (Auth.Date_now w) + n)) = true)
    by (apply ge_Num; lia).
  rewrite Hge. repeat split.
Qed.

Lemma nonpositive_expiry_gives_expired_session_witness :
  Auth.authenticate 1
    (loginWorld [Auth.Request "/callback" (callback (Some "-60"))] 1700000000123)
    None (storeWith None)
  = (Resolved tt, storeWith (Some (loggedIn 1699999940)))
  /\ authenticated (Auth.checkAuth (storeWith (Some (loggedIn 1699999940))) 1700000000123)
     = false
  /\ isExpired (Auth.checkAuth (storeWith (Some (loggedIn 1699999940))) 1700000000123)
     = true
  /\ Auth.getAccessToken (storeWith (Some (loggedIn 1699999940))) 1700000000123
     = Throw Auth.TokenExpired.
Proof.
  split; [reflexivity|].
  refine (proj2 (nonpositive_expiry_gives_expired_session 1
    (loginWorld [Auth.Request "/callback" (callback (Some "-60"))] 1700000000123)
    None (storeWith None) (callback (Some "-60")) "a" "b"
    {| Auth.supabase_id := "u-1"; Auth.supabase_email := Some "user@example.com" |}
    (-60) _ _ _ _ _ _ _ _ _ _ _ _) 1700000000123 _).
  - split; [eexists; reflexivity|].
    exists 54321. split; [reflexivity | split; reflexivity].
  - reflexivity.
  - reflexivity.
  - reflexivity.
  - discriminate.
  - reflexivity.
  - discriminate.
  - reflexivity.
  - reflexivity.
  - reflexivity.
  - lia.
  - vm_compute. discriminate.
  - apply Z.le_refl.
Defined.

Section EncodingFacts.

(** A character that is neither a hexadecimal digit nor the percent sign
    does not occur in an escape. *)
Lemma percent_avoids (d c : ascii) :
  Ascii.eqb d "%" = false ->
  (forall n, Ascii.eqb d (hex_digit n) = false) ->
  count_char d (percent c) = 0%nat.
Proof.
  intros Hp Hh. unfold percent. cbn [count_char]. now rewrite Hp, !Hh.
Qed.

Lemma encodeURIComponent_avoids (d : ascii) (s : string) :
  uri_unreserved d = false ->
  Ascii.eqb d "%" = false ->
  (forall n, Ascii.eqb d (hex_digit n) = false) ->
  count_char d (encodeURIComponent s) = 0%nat.
Proof.
  intros Hu Hp Hh. induction s as [|c s IH]; [reflexivity|].
  cbn [encodeURIComponent]. rewrite count_char_app, IH.
  destruct (uri_unreserved c) eqn:E.
  - cbn [count_char]. destruct (Ascii.eqb d c) eqn:Edc; [|reflexivity].
    apply Ascii.eqb_eq in Edc. subst c. congruence.
  - now rewrite percent_avoids.
Qed.

Lemma form_urlencode_avoids (d : ascii) (s : string) :
  form_safe d = false ->
  Ascii.eqb d "%" = false ->
  Ascii.eqb d "+" = false ->
  (forall n, Ascii.eqb d (hex_digit n) = false) ->
  count_char d (form_urlencode s) = 0%nat.
Proof.
  intros Hu Hp Hplus Hh. induction s as [|c s IH]; [reflexivity|].
  cbn [form_urlencode]. rewrite count_char_app, IH.
  destruct (Ascii.eqb c " ").
  - cbn [count_char]. now rewrite Hplus.
  - destruct (form_safe c) eqn:E.
    + cbn [count_char]. destruct (Ascii.eqb d c) eqn:Edc; [|reflexivity].
      apply Ascii.eqb_eq in Edc. subst c. congruence.
    + now rewrite percent_avoids.
Qed.

Lemma not_hex_digit (d : ascii) :
  mem_char d "0123456789ABCDEF" = false ->
  forall n, Ascii.eqb d (hex_digit n) = false.
Proof.
  intros H n. cbn [mem_char] in H. repeat apply orb_false_elim in H as [? H].
  unfold hex_digit. destruct n as [|q]; [assumption|].
  do 4 (destruct q as [q|q|]; try assumption).
Qed.

End EncodingFacts.

(** X18.  A project name stays one path segment and a status filter stays
    one query parameter: the encoded name holds none of the characters
    slash, question mark, hash, ampersand, equals sign and space, nor does
    the encoded status, so the endpoint of [listProjects] with a filter
    has exactly one question mark, one equals sign and no ampersand. *)
Theorem encoded_values_stay_in_place (s : string) (d : ascii) :
  mem_char d "/?#&= " = true ->
  count_char d (encodeURIComponent s) = 0%nat
  /\ count_char d (form_urlencode s) = 0%nat
  /\ (s <> "" ->
      count_char "?" (Api.listProjects_endpoint (Some s)) = 1%nat
      /\ count_char "=" (Api.listProjects_endpoint (Some s)) = 1%nat
      /\ count_char "&" (Api.listProjects_endpoint (Some s)) = 0%nat
      /\ count_char "/" (Api.listProjects_endpoint (Some s)) = 1%nat).
Proof.
  intros Hd.
  assert (Hall : forall c, mem_char c "/?#&= " = true ->
            count_char c (encodeURIComponent s) = 0%nat
            /\ count_char c (form_urlencode s) = 0%nat).
  { intros c Hc. cbn [mem_char] in Hc.
    repeat (apply orb_prop in Hc as [Hc | Hc];
            [apply Ascii.eqb_eq in Hc; subst c;
             split; [apply encodeURIComponent_avoids | apply form_urlencode_avoids];
             try reflexivity; now apply not_hex_digit|]).
    discriminate. }
  destruct (Hall d Hd) as [H1 H2]. split; [exact H1|]. split; [exact H2|].
  intros Hne. unfold Api.listProjects_endpoint, present. cbn [truthy].
  apply String.eqb_neq in Hne. rewrite Hne. cbn [negb].
  rewrite !app_cons, !app_empty_l. cbn [truthy String.eqb negb].
  cbn [count_char Ascii.eqb Bool.eqb].
  rewrite (proj2 (Hall "?"%char eq_refl)), (proj2 (Hall "="%char eq_refl)),
    (proj2 (Hall "&"%char eq_refl)), (proj2 (Hall "/"%char eq_refl)).
  repeat split.
Qed.

Lemma encoded_values_stay_in_place_witness :
  count_char "&" (form_urlencode "done&limit=1") = 0%nat.
Proof.
  refine (proj1 (proj2 (encoded_values_stay_in_place "done&limit=1" "&" _))).
  reflexivity.
Defined.

Example split_uri :
  Server.split "/" "quibo://projects/p1/outline" = ["quibo:"; ""; "projects"; "p1"; "outline"].
Proof. reflexivity. Qed.
Example split_empty : Server.split "." "" = [""].
Proof. reflexivity. Qed.
Example split_trailing : Server.split "." "a." = ["a"; ""].
Proof. reflexivity. Qed.
Example route_outline : Server.route "quibo://projects/p1/outline" = Server.ProjectOutline "p1".
Proof. reflexivity. Qed.
Example route_named_outline : Server.route "quibo://projects/outline" = Server.ProjectDetails "outline".
Proof. reflexivity. Qed.
Example mime_upper : Server.getMimeType "Notes.final.MD" = "text/markdown".
Proof. reflexivity. Qed.
Example mime_bare : Server.getMimeType "txt" = "text/plain".
Proof. reflexivity. Qed.

(* ===================================================================== *)
(** ** Further properties: resource addresses and file types *)
(* ===================================================================== *)

Section SplitFacts.

Import Server.

Lemma split_nonempty (sep : ascii) (s : string) : split sep s <> [].
Proof.
  destruct s as [|c s]; cbn [split]; [discriminate|].
  destruct (Ascii.eqb c sep); [discriminate|].
  destruct (split sep s); discriminate.
Qed.

Lemma split_cons_other (sep c : ascii) (s : string) :
  Ascii.eqb c sep = false ->
  exists piece pieces,
    split sep s = piece :: pieces /\ split sep (String c s) = String c piece :: pieces.
Proof.
  intros H. cbn [split]. rewrite H.
  destruct (split sep s) as [|piece pieces] eqn:E; [now apply split_nonempty in E|].
  now exists piece, pieces.
Qed.

(** A text without the separator is one piece. *)
Lemma split_no_sep (sep : ascii) (s : string) :
  count_char sep s = 0%nat -> split sep s = [s].
Proof.
  induction s as [|c s IH]; [reflexivity|].
  cbn [count_char split]. rewrite (Ascii.eqb_sym c sep).
  destruct (Ascii.eqb sep c); [discriminate|].
  intros H. now rewrite IH.
Qed.

(** Splitting at a separator splits the pieces. *)
Lemma split_app (sep : ascii) (a b : string) :
  split sep (a ++ String sep b) = (split sep a ++ split sep b)%list.
Proof.
  induction a as [|c a IH].
  - rewrite app_empty_l. cbn [split]. now rewrite Ascii.eqb_refl.
  - rewrite app_cons. cbn [split]. rewrite IH.
    destruct (Ascii.eqb c sep); [reflexivity|].
    destruct (split sep a) as [|piece pieces] eqn:E; [now apply split_nonempty in E|].
    reflexivity.
Qed.

(** Joining the pieces gives the text back, and no piece holds the
    separator. *)
Lemma join_split (sep : ascii) (s : string) : join sep (split sep s) = s.
Proof.
  induction s as [|c s IH]; [reflexivity|].
  cbn [split]. destruct (Ascii.eqb c sep) eqn:E.
  - apply Ascii.eqb_eq in E. subst c.
    destruct (split sep s) as [|piece pieces] eqn:Es; [now apply split_nonempty in Es|].
    cbn [join] in *. now rewrite IH.
  - destruct (split sep s) as [|piece pieces] eqn:Es; [now apply split_nonempty in Es|].
    destruct pieces as [|next pieces]; cbn [join] in *.
    + now rewrite IH.
    + rewrite app_cons. now rewrite IH.
Qed.

Lemma split_pieces (sep : ascii) (s : string) :
  Forall (fun piece => count_char sep piece = 0%nat) (split sep s).
Proof.
  induction s as [|c s IH]; [repeat constructor|].
  cbn [split]. destruct (Ascii.eqb c sep) eqn:E.
  - constructor; [reflexivity | exact IH].
  - destruct (split sep s) as [|piece pieces]; [repeat constructor|].
    + cbn [count_char]. now rewrite Ascii.eqb_sym, E.
    + inversion_clear IH as [|? ? Hp Hr]. constructor; [|exact Hr].
      cbn [count_char]. now rewrite Ascii.eqb_sym, E, Hp.
Qed.

Lemma stripPrefix_app (p r : string) : stripPrefix p (p ++ r) = Some r.
Proof.
  induction p as [|c p IH]; [now destruct r|].
  rewrite app_cons. cbn [stripPrefix]. now rewrite Ascii.eqb_refl.
Qed.

Lemma stripPrefix_elim (p s r : string) : stripPrefix p s = Some r -> s = p ++ r.
Proof.
  revert s. induction p as [|c p IH]; intros s H.
  - destruct s; now injection H as <-.
  - destruct s as [|d s]; [discriminate|]. cbn [stripPrefix] in H.
    destruct (Ascii.eqb c d) eqn:E; [|discriminate].
    apply Ascii.eqb_eq in E. subst d. rewrite app_cons. f_equal. now apply IH.
Qed.

Lemma isSegment_spec (s : string) :
  isSegment s = true <-> s <> "" /\ count_char "/" s = 0%nat.
Proof.
  unfold isSegment. rewrite andb_true_iff, negb_true_iff, String.eqb_neq, Nat.eqb_eq.
  reflexivity.
Qed.

(** The pieces of the three kinds of address. *)
Lemma split_projectUri (rest : string) :
  split "/" ("quibo://projects/" ++ rest)
  = (["quibo:"; ""; "projects"] ++ split "/" rest)%list.
Proof.
  change ("quibo://projects/" ++ rest) with ("quibo://projects" ++ String "/" rest).
  now rewrite split_app.
Qed.

Lemma split_child (segment child : string) :
  count_char "/" segment = 0%nat -> count_char "/" child = 0%nat ->
  split "/" (segment ++ String "/" child) = [segment; child].
Proof.
  intros Hs Hc. now rewrite split_app, !split_no_sep.
Qed.

End SplitFacts.

(** X19.  The addresses that the readers put on what they return lead
    back to the same reader and the same project: for a project id that is
    not empty and holds no slash, the address of the project routes to the
    details reader, the address of its outline to the outline reader and
    the address of its draft to the draft reader, each with that id. *)
Theorem reader_addresses_route_back (projectId : string) :
  projectId <> "" -> count_char "/" projectId = 0%nat ->
  Server.route (Server.projectUri projectId) = Server.ProjectDetails projectId
  /\ Server.route (Server.outlineUri projectId) = Server.ProjectOutline projectId
  /\ Server.route (Server.draftUri projectId) = Server.ProjectDraft projectId.
Proof.
  intros Hne Hslash.
  assert (Hseg : Server.isSegment projectId = true) by now apply isSegment_spec.
  assert (Hnot : forall child, Server.isSegment (projectId ++ String "/" child) = false).
  { intros child. apply not_true_is_false. intros H.
    apply isSegment_spec in H as [_ H]. rewrite count_char_app in H.
    cbn [count_char Ascii.eqb Bool.eqb] in H. lia. }
  unfold Server.route, Server.projectUri, Server.outlineUri, Server.draftUri.
  split; [|split].
  - unfold Server.matchesProject. rewrite stripPrefix_app, Hseg, split_projectUri.
    rewrite (split_no_sep "/" projectId Hslash).
    destruct projectId; [now elim Hne | reflexivity].
  - unfold Server.matchesProject, Server.matchesChild.
    rewrite !stripPrefix_app, split_projectUri.
    change (projectId ++ "/outline") with (projectId ++ String "/" "outline").
    rewrite Hnot, split_child, Hseg by (assumption || reflexivity).
    destruct projectId; [now elim Hne | reflexivity].
  - unfold Server.matchesProject, Server.matchesChild.
    rewrite !stripPrefix_app, split_projectUri.
    change (projectId ++ "/draft") with (projectId ++ String "/" "draft").
    rewrite Hnot, split_child, Hseg by (assumption || reflexivity).
    destruct projectId; [now elim Hne | reflexivity].
Qed.

Lemma reader_addresses_route_back_witness :
  Server.route (Server.outlineUri "my-blog") = Server.ProjectOutline "my-blog".
Proof.
  refine (proj1 (proj2 (reader_addresses_route_back "my-blog" _ _))).
  - discriminate.
  - reflexivity.
Defined.

Section RouteFacts.

Import Server.

Lemma matchesProject_elim (uri : string) :
  matchesProject uri = true ->
  exists segment, uri = projectUri segment /\ segment <> ""
                  /\ count_char "/" segment = 0%nat.
Proof.
  unfold matchesProject.
  destruct (stripPrefix "quibo://projects/" uri) as [rest|] eqn:E; [|discriminate].
  intros H. apply isSegment_spec in H. apply stripPrefix_elim in E.
  now exists rest.
Qed.

Lemma matchesChild_elim (child uri : string) :
  matchesChild child uri = true ->
  exists segment, uri = "quibo://projects/" ++ segment ++ String "/" child
                  /\ segment <> "" /\ count_char "/" segment = 0%nat.
Proof.
  unfold matchesChild.
  destruct (stripPrefix "quibo://projects/" uri) as [rest|] eqn:E; [|discriminate].
  destruct (split "/" rest) as [|segment [|tail [|]]] eqn:Es; try discriminate.
  intros H. apply andb_true_iff in H as [Hseg Htail].
  apply isSegment_spec in Hseg. apply String.eqb_eq in Htail. subst tail.
  apply stripPrefix_elim in E. exists segment. split; [|exact Hseg].
  rewrite E. f_equal. rewrite <- (join_split "/" rest), Es. reflexivity.
Qed.

Lemma pop_projectUri (segment : string) :
  count_char "/" segment = 0%nat ->
  pop (split "/" (projectUri segment)) = Some segment.
Proof.
  intros H. unfold projectUri, pop. rewrite split_projectUri, split_no_sep by exact H.
  reflexivity.
Qed.

Lemma fourth_of_child (segment child : string) :
  count_char "/" segment = 0%nat -> count_char "/" child = 0%nat ->
  split "/" ("quibo://projects/" ++ segment ++ String "/" child) !! 3%nat
  = Some segment.
Proof.
  intros Hs Hc. rewrite split_projectUri, split_child by assumption. reflexivity.
Qed.

End RouteFacts.

(** X20.  The handler hands a reader nothing but one segment of the
    address: the list reader is chosen for the address [quibo://projects]
    only, and whenever a project reader is chosen the address is the one
    that reader writes for the id it gets, and the id is not empty and
    holds no slash; every other address fails with the error that names
    it. *)
Theorem route_hands_over_one_segment (uri : string) :
  (Server.route uri = Server.ProjectsList <-> uri = "quibo://projects")
  /\ (forall projectId, Server.route uri = Server.ProjectDetails projectId ->
        uri = Server.projectUri projectId
        /\ projectId <> "" /\ count_char "/" projectId = 0%nat)
  /\ (forall projectId, Server.route uri = Server.ProjectOutline projectId ->
        uri = Server.outlineUri projectId
        /\ projectId <> "" /\ count_char "/" projectId = 0%nat)
  /\ (forall projectId, Server.route uri = Server.ProjectDraft projectId ->
        uri = Server.draftUri projectId
        /\ projectId <> "" /\ count_char "/" projectId = 0%nat)
  /\ (forall e, Server.route uri = Server.UnknownResource e ->
        e = Error ("Unknown resource URI: " ++ uri)).
Proof.
  unfold Server.route.
  destruct (String.eqb uri "quibo://projects") eqn:E0.
  { apply String.eqb_eq in E0.
    split; [now split|]. repeat split; discriminate. }
  apply String.eqb_neq in E0.
  destruct (Server.matchesProject uri) eqn:E1.
  { apply matchesProject_elim in E1 as (segment & -> & Hne & Hslash).
    rewrite (pop_projectUri segment Hslash). cbn [default].
    split; [split; [discriminate | contradiction]|].
    split; [now intros ? [= <-]|]. repeat split; discriminate. }
  destruct (Server.matchesChild "outline" uri) eqn:E2.
  { apply matchesChild_elim in E2 as (segment & -> & Hne & Hslash).
    rewrite (fourth_of_child segment "outline" Hslash eq_refl). cbn [default].
    split; [split; [discriminate | contradiction]|].
    split; [discriminate|]. split; [now intros ? [= <-]|].
    repeat split; discriminate. }
  destruct (Server.matchesChild "draft" uri) eqn:E3.
  { apply matchesChild_elim in E3 as (segment & -> & Hne & Hslash).
    rewrite (fourth_of_child segment "draft" Hslash eq_refl). cbn [default].
    split; [split; [discriminate | contradiction]|].
    split; [discriminate|]. split; [discriminate|].
    split; [now intros ? [= <-]|]. discriminate. }
  split; [split; [discriminate | contradiction]|].
  split; [discriminate|]. split; [discriminate|]. split; [discriminate|].
  now intros e [= <-].
Qed.

Lemma route_hands_over_one_segment_witness :
  Error "Unknown resource URI: quibo://projects/a/b"
  = Error ("Unknown resource URI: " ++ "quibo://projects/a/b").
Proof.
  refine (proj2 (proj2 (proj2 (proj2 (route_hands_over_one_segment
    "quibo://projects/a/b")))) _ _).
  reflexivity.
Defined.

(** X21.  The type of an uploaded file is decided by the text after the
    last dot of its name, whatever the case of its letters: a name and its
    last extension have the same type, the extension is looked up in lower
    case (ipynb, md, py, txt, anything else being a byte stream), a name
    without a dot is its own extension, and for a path the directories do
    not count.  A path that ends in a slash names the file "unknown". *)
Theorem mime_type_by_last_extension (base ext : string) :
  count_char "." ext = 0%nat ->
  Server.getMimeType (base ++ "." ++ ext) = Server.getMimeType ext
  /\ Server.getMimeType ext
     = (if String.eqb (Server.toLowerCase ext) "ipynb" then "application/x-ipynb+json"
        else if String.eqb (Server.toLowerCase ext) "md" then "text/markdown"
        else if String.eqb (Server.toLowerCase ext) "py" then "text/x-python"
        else if String.eqb (Server.toLowerCase ext) "txt" then "text/plain"
        else "application/octet-stream")
  /\ (forall dir, count_char "/" base = 0%nat -> count_char "/" ext = 0%nat ->
        Server.fileNameOf (dir ++ "/" ++ base ++ "." ++ ext) = base ++ "." ++ ext
        /\ Server.getMimeType (Server.fileNameOf (dir ++ "/" ++ base ++ "." ++ ext))
           = Server.getMimeType ext)
  /\ (forall dir, Server.fileNameOf (dir ++ "/") = "unknown").
Proof.
  intros Hdot.
  assert (Hlast : forall b, Server.getMimeType (b ++ "." ++ ext) = Server.getMimeType ext).
  { intros b. unfold Server.getMimeType, Server.pop.
    change (b ++ "." ++ ext) with (b ++ String "." ext).
    rewrite split_app, !(split_no_sep "." ext Hdot), last_snoc. reflexivity. }
  split; [apply Hlast|]. split.
  - unfold Server.getMimeType, Server.pop. rewrite (split_no_sep "." ext Hdot).
    reflexivity.
  - split.
    + intros dir Hb He.
      assert (Hname : Server.fileNameOf (dir ++ "/" ++ base ++ "." ++ ext)
                      = base ++ "." ++ ext).
      { unfold Server.fileNameOf, Server.pop.
        change (dir ++ "/" ++ base ++ "." ++ ext)
          with (dir ++ String "/" (base ++ "." ++ ext)).
        rewrite split_app, (split_no_sep "/" (base ++ "." ++ ext)), last_snoc.
        - cbn [or_else]. destruct base; reflexivity.
        - rewrite count_char_app, Hb. rewrite app_cons, app_empty_l.
          cbn [count_char Ascii.eqb Bool.eqb]. now rewrite He. }
      split; [exact Hname|]. rewrite Hname. apply Hlast.
    + intros dir. unfold Server.fileNameOf, Server.pop.
      change (dir ++ "/") with (dir ++ String "/" "").
      rewrite split_app. cbn [Server.split]. now rewrite last_snoc.
Qed.

Lemma mime_type_by_last_extension_witness :
  Server.getMimeType ("Notes.final" ++ "." ++ "MD") = Server.getMimeType "MD".
Proof.
  refine (proj1 (mime_type_by_last_extension "Notes.final" "MD" _)).
  reflexivity.
Defined.

(* ===================================================================== *)
(** ** Further properties: what the browser is told, what is sent *)
(* ===================================================================== *)

(** X22.  With a client, a port and an authorization URL at hand, the
    page written for the first callback request depends on the [error]
    parameter alone.  With [error] set the browser gets the failure
    page with the description that [authenticate()] then fails with.
    Without it the browser gets the success page before the tokens are
    looked at: also when a token is missing and [authenticate()] fails
    with the missing-tokens error. *)
Theorem callback_page_follows_error_only
    (fuel : nat) (w : Auth.World) (supabaseClient : option Auth.SupabaseClient)
    (store : QuiboConfig) (pre : list Auth.Event) (p : OAuthCallbackParams) :
  Auth.awaitsCallback fuel w supabaseClient store ->
  Auth.events w = (pre ++ [Auth.Request "/callback" p])%list ->
  Forall Auth.elsewhere pre ->
  (forall err, error p = Some err -> err <> "" ->
     Auth.replies (Auth.run (Auth.events w))
       = (repeat Auth.NotFound (length pre)
          ++ [Auth.FailedPage (or_else (error_description p) err)])%list
     /\ Auth.authenticate fuel w supabaseClient store
       = (Rejected (Auth.OAuthProviderError (or_else (error_description p) err)), store))
  /\ (truthy (error p) = false ->
      Auth.replies (Auth.run (Auth.events w))
        = (repeat Auth.NotFound (length pre) ++ [Auth.SuccessPage])%list
      /\ (truthy (access_token p) = false \/ truthy (refresh_token p) = false ->
          Auth.authenticate fuel w supabaseClient store
          = (Rejected Auth.MissingTokensInCallback, store))).
Proof.
  intros Hwait Hevs Hpre.
  assert (Hp : Auth.startCallbackServer (Auth.events w) = Resolved p)
    by (rewrite Hevs; now apply run_first_callback).
  assert (Hreplies : Auth.replies (Auth.run (Auth.events w))
            = (repeat Auth.NotFound (length pre)
               ++ [match present (error p) with
                   | Some err => Auth.FailedPage (Auth.describe p err)
                   | None => Auth.SuccessPage
                   end])%list).
  { rewrite Hevs, run_app. cbn [fold_left Auth.handle String.eqb Ascii.eqb Bool.eqb].
    cbn [Auth.replies]. now rewrite (proj1 (run_elsewhere_replies pre Hpre)). }
  rewrite Hreplies, authenticate_awaits by assumption. rewrite Hp.
  unfold Auth.completeLogin, present. split.
  - intros err He Hne. rewrite He. cbn [truthy].
    apply String.eqb_neq in Hne. rewrite Hne. now split.
  - intros Hnone. rewrite Hnone. split; [reflexivity|].
    intros [-> | ->]; [reflexivity|].
    now destruct (truthy (access_token p)), (access_token p).
Qed.

Lemma callback_page_follows_error_only_witness :
  Auth.replies (Auth.run [Auth.Request "/favicon.ico" (callback None);
                          Auth.Request "/callback" halfCallback])
    = [Auth.NotFound; Auth.SuccessPage]
  /\ Auth.authenticate 1
       (loginWorld [Auth.Request "/favicon.ico" (callback None);
                    Auth.Request "/callback" halfCallback] 1700000000123)
       None (storeWith None)
    = (Rejected Auth.MissingTokensInCallback, storeWith None).
Proof.
  destruct (callback_page_follows_error_only 1
    (loginWorld [Auth.Request "/favicon.ico" (callback None);
                 Auth.Request "/callback" halfCallback] 1700000000123)
    None (storeWith None) [Auth.Request "/favicon.ico" (callback None)] halfCallback)
    as [_ H].
  - split; [eexists; reflexivity|].
    exists 54321. split; [reflexivity | split; reflexivity].
  - reflexivity.
  - constructor; [discriminate | constructor].
  - destruct (H eq_refl) as [Hpage Hfail]. split; [exact Hpage|].
    apply Hfail. now right.
Defined.

(** X23.  Expiry is final: with the store unchanged, once
    [getAccessToken()] has thrown the token-expired error it throws it at
    every later time, and once [checkAuth()] has reported expired it
    reports expired at every later time; a status of "authenticated" at
    some time held at every earlier time. *)
Theorem expiry_is_final (store : QuiboConfig) (ms ms' : Z) :
  floor_div_1000 ms <= floor_div_1000 ms' ->
  (Auth.getAccessToken store ms = Throw Auth.TokenExpired ->
     Auth.getAccessToken store ms' = Throw Auth.TokenExpired)
  /\ (isExpired (Auth.checkAuth store ms) = true ->
      isExpired (Auth.checkAuth store ms') = true)
  /\ (authenticated (Auth.checkAuth store ms') = true ->
      authenticated (Auth.checkAuth store ms) = true).
Proof.
  intros Hle.
  assert (Hge : forall e, ge (Num (floor_div_1000 ms)) e = true ->
                          ge (Num (floor_div_1000 ms')) e = true).
  { intros [e| |[|]|]; try discriminate; try reflexivity.
    - rewrite !ge_Num. lia.
    - rewrite !ge_Null. lia. }
  unfold Auth.getAccessToken, Auth.checkAuth.
  destruct (Config.getAuth store) as [a|]; cbn [isExpired authenticated].
  - destruct (ge (Num (floor_div_1000 ms)) (expiresAt a)) eqn:E.
    + rewrite (Hge _ E). repeat split; discriminate.
    + split; [discriminate|]. split; [discriminate | reflexivity].
  - split; [discriminate|]. split; [reflexivity | discriminate].
Qed.

Lemma expiry_is_final_witness :
  isExpired (Auth.checkAuth (storeWith (Some (session 1000))) 5000000) = true.
Proof.
  refine (proj1 (proj2 (expiry_is_final (storeWith (Some (session 1000)))
                          1000000 5000000 _)) _).
  - vm_compute. discriminate.
  - reflexivity.
Defined.
